(** * Camillo: a shallow embedding of the middleware chain and its context store

    The development follows the Go sources of the package:
    - [context_store.go] in its two revisions (one context per request, and
      a stack of contexts per request),
    - [camillo.go] (handlers, the middleware chain, [Wrap], the dispatcher),
    - [recovery.go] (the panic recovery middleware).

    Go code is embedded as functions of an explicit program state.  A call
    either returns or panics; [defer] and [recover] are combinators on such
    calls.  Pointers are modelled by the natural number that identifies the
    object they point to; the nil pointer, the nil interface and the nil map
    are [None]. *)

From Stdlib Require Import ZArith String List.
From stdpp Require Import base option list gmap strings.

(** ** Go values *)

(** A [*http.Request]: only the identity of the request is used by the
    package (it is the key of the context store). *)
Abbreviation Request := nat (only parsing).

(** A non-nil [context.Context].  The identifier of a derived context is the
    identity of the object allocated by [context.WithCancel] or
    [context.WithValue]; [Background] is the package's singleton. *)
Inductive context : Type :=
| Background
| CancelCtx (id : nat) (parent : context)
| ValueCtx (id : nat) (parent : context) (key val : string).

(** The interface type [context.Context]: [None] is the nil interface. *)
Abbreviation Context := (option context) (only parsing).
Abbreviation nil_ctx := (@None context) (only parsing).

#[global] Instance context_eq_dec : EqDecision context.
Proof. solve_decision. Defined.

(** Values carried by a panic, with their rendering under the [%s] verb. *)
Inductive value : Type :=
| VString (s : string)
| VError (msg : string)
| VOther (rendered : string).

#[global] Instance value_eq_dec : EqDecision value.
Proof. solve_decision. Defined.

(** [interface{}]: the argument of [panic] and the result of [recover].
    [panic(nil)] carries [None] on the toolchains where [recover] then
    returns nil. *)
Abbreviation any := (option value) (only parsing).

(** The outcome of a call. *)
Inductive Result (A : Type) : Type :=
| Normal (a : A)
| Panic (v : any).
Arguments Normal {A} a.
Arguments Panic {A} v.

Definition nil_dereference : value :=
  VError "runtime error: invalid memory address or nil pointer dereference"%string.

Definition unbalanced : value := VString "unbalanced Push/Pop calls"%string.

(** ** The context store, one context per request

    [contexts] is the Go map, [None] when it has not been allocated.  The
    [sync.RWMutex] is not part of the model: calls are sequential, and every
    method releases the lock it takes before it returns. *)
Module SingleSlot.

Record contextStore : Type := mkStore {
  contexts : option (gmap nat (option context))
}.

(** The zero value, which is what [var sharedContextStore contextStore]
    holds when the program starts. *)
Definition zero : contextStore := mkStore None.

Definition Get (s : contextStore) (req : Request) : Context :=
  match contexts s with
  | None => nil_ctx
  | Some m =>
      match m !! req with
      | Some c => c
      | None => nil_ctx
      end
  end.

Definition Add (req : Request) (c : Context) (s : contextStore) : contextStore :=
  let m := match contexts s with
           | None => ∅
           | Some m => m
           end in
  mkStore (Some (<[req := c]> m)).

Definition Remove (req : Request) (s : contextStore) : contextStore :=
  match contexts s with
  | None => s
  | Some m => mkStore (Some (delete req m))
  end.

(** Whether the map has an entry for the request (whatever its value). *)
Definition has_entry (s : contextStore) (req : Request) : Prop :=
  match contexts s with
  | None => False
  | Some m => is_Some (m !! req)
  end.

(** The calls a program can make on a store, and a sequence of them. *)
Inductive op : Type :=
| OpAdd (req : Request) (c : Context)
| OpRemove (req : Request)
| OpGet (req : Request).

Definition apply_op (s : contextStore) (o : op) : contextStore :=
  match o with
  | OpAdd req c => Add req c s
  | OpRemove req => Remove req s
  | OpGet _ => s
  end.

Definition run (ops : list op) (s : contextStore) : contextStore :=
  fold_left apply_op ops s.

Definition adds (req : Request) (o : op) : bool :=
  match o with
  | OpAdd r _ => bool_decide (r = req)
  | _ => false
  end.

End SingleSlot.

(** ** The context store, a stack of contexts per request *)
Module Stacked.

Record contextStore : Type := mkStore {
  contexts : option (gmap nat (list (option context)))
}.

Definition zero : contextStore := mkStore None.

(** [s.contexts[req]] on an allocated map: the zero value of a slice is
    the empty one. *)
Definition stack_at (m : gmap nat (list (option context))) (req : Request)
  : list (option context) :=
  match m !! req with
  | Some stack => stack
  | None => []
  end.

Definition Get (s : contextStore) (req : Request) : Context :=
  match contexts s with
  | None => nil_ctx
  | Some m =>
      match last (stack_at m req) with
      | None => nil_ctx
      | Some c => c
      end
  end.

Definition Push (req : Request) (c : Context) (s : contextStore) : contextStore :=
  let m := match contexts s with
           | None => ∅
           | Some m => m
           end in
  mkStore (Some (<[req := stack_at m req ++ [c]]> m)).

(** [last stack] is [stack[len(stack)-1]], and [None] when
    [len(stack) == 0]; both failed tests raise the same panic. *)
Definition Pop (req : Request) (c : Context) (s : contextStore)
  : Result unit * contextStore :=
  match contexts s with
  | None => (Normal tt, s)
  | Some m =>
      let stack := stack_at m req in
      match last stack with
      | None => (Panic (Some unbalanced), s)
      | Some top =>
          if decide (top = c) then
            let stack' := take (length stack - 1) stack in
            match stack' with
            | [] => (Normal tt, mkStore (Some (delete req m)))
            | _ :: _ => (Normal tt, mkStore (Some (<[req := stack']> m)))
            end
          else (Panic (Some unbalanced), s)
      end
  end.

(** The contexts stacked for a request, bottom first. *)
Definition stacked (s : contextStore) (req : Request) : list (option context) :=
  match contexts s with
  | None => []
  | Some m => stack_at m req
  end.

Inductive op : Type :=
| OpPush (req : Request) (c : Context)
| OpPop (req : Request) (c : Context)
| OpGet (req : Request).

(** A [Pop] that panics leaves the store as it was. *)
Definition apply_op (s : contextStore) (o : op) : contextStore :=
  match o with
  | OpPush req c => Push req c s
  | OpPop req c => snd (Pop req c s)
  | OpGet _ => s
  end.

Definition run (ops : list op) (s : contextStore) : contextStore :=
  fold_left apply_op ops s.

Definition pushes (req : Request) (o : op) : bool :=
  match o with
  | OpPush r _ => bool_decide (r = req)
  | _ => false
  end.

End Stacked.

(** ** The program state *)

(** A call received by a response writer of the host server. *)
Inductive rw_call : Type :=
| CallWriteHeader (code : Z)
| CallWrite (data : string).

(** An [http.ResponseWriter]: a writer of the host server, or the
    [*responseWriter] that [NewResponseWriter] allocates around another
    writer. *)
Inductive ResponseWriter : Type :=
| RawWriter (id : nat)
| Wrapper (id : nat) (inner : ResponseWriter).

(** What a response wrapper has recorded. *)
Record wrapperState : Type := mkWrapperState {
  status : Z;
  size : Z
}.

(** A [log.Logger] and a line it has printed. *)
Record logger : Type := mkLogger {
  logger_out : nat;
  logger_prefix : string
}.

Record logLine : Type := mkLogLine {
  line_out : nat;
  line_prefix : string;
  line_message : string
}.

Definition os_Stdout : nat := 1.

Record World : Type := mkWorld {
  (** [var sharedContextStore contextStore] *)
  sharedContextStore : SingleSlot.contextStore;
  (** the cancel contexts whose cancel function has been called *)
  cancelled : gset nat;
  (** the identity of the next allocated object *)
  next_object : nat;
  (** the calls received by the host's response writers, oldest first *)
  wire : list (nat * rw_call);
  (** the state of the allocated response wrappers *)
  wrappers : gmap nat wrapperState;
  (** the lines printed by loggers, oldest first *)
  logged : list logLine;
  (** the trace that [runtime.Stack] formats, for one or all goroutines *)
  stack_dump : bool -> string
}.

Definition set_store (f : SingleSlot.contextStore -> SingleSlot.contextStore)
  (w : World) : World :=
  mkWorld (f (sharedContextStore w)) (cancelled w) (next_object w) (wire w)
          (wrappers w) (logged w) (stack_dump w).

Definition set_cancelled (f : gset nat -> gset nat) (w : World) : World :=
  mkWorld (sharedContextStore w) (f (cancelled w)) (next_object w) (wire w)
          (wrappers w) (logged w) (stack_dump w).

Definition set_next_object (f : nat -> nat) (w : World) : World :=
  mkWorld (sharedContextStore w) (cancelled w) (f (next_object w)) (wire w)
          (wrappers w) (logged w) (stack_dump w).

Definition set_wire (f : list (nat * rw_call) -> list (nat * rw_call))
  (w : World) : World :=
  mkWorld (sharedContextStore w) (cancelled w) (next_object w) (f (wire w))
          (wrappers w) (logged w) (stack_dump w).

Definition set_wrappers (f : gmap nat wrapperState -> gmap nat wrapperState)
  (w : World) : World :=
  mkWorld (sharedContextStore w) (cancelled w) (next_object w) (wire w)
          (f (wrappers w)) (logged w) (stack_dump w).

Definition set_logged (f : list logLine -> list logLine) (w : World) : World :=
  mkWorld (sharedContextStore w) (cancelled w) (next_object w) (wire w)
          (wrappers w) (f (logged w)) (stack_dump w).

(** The state of a program that has just started. *)
Definition initial (dump : bool -> string) : World :=
  mkWorld SingleSlot.zero ∅ 0 [] ∅ [] dump.

(** ** Calls: a state and panic monad *)

Definition M (A : Type) : Type := World -> Result A * World.

Definition ret {A} (a : A) : M A := fun w => (Normal a, w).

Definition bind {A B} (c : M A) (k : A -> M B) : M B := fun w =>
  match c w with
  | (Normal a, w') => k a w'
  | (Panic v, w') => (Panic v, w')
  end.

Definition panic {A} (v : any) : M A := fun w => (Panic v, w).

Definition modify (f : World -> World) : M unit := fun w => (Normal tt, f w).

Definition gets {A} (f : World -> A) : M A := fun w => (Normal (f w), w).

Declare Scope go_scope.
Delimit Scope go_scope with go.
Notation "x <- c ;; k" := (bind c (fun x => k))
  (at level 100, c at next level, k at level 200, right associativity)
  : go_scope.
Notation "c ;; k" := (bind c (fun _ => k))
  (at level 100, k at level 200, right associativity) : go_scope.
Open Scope go_scope.

(** [defer deferred()] at the head of [body], for a deferred call that does
    not call [recover]: it runs when the body returns or panics, and a panic
    of its own replaces the outcome of the body. *)
Definition defer {A} (deferred : M unit) (body : M A) : M A := fun w =>
  match body w with
  | (r, w1) =>
      match deferred w1 with
      | (Normal _, w2) => (r, w2)
      | (Panic v, w2) => (Panic v, w2)
      end
  end.

(** [defer func() { err := recover(); ... }()] at the head of [body], in a
    function without results: [recover] stops the panic and yields its value,
    or nil when the body has returned; the function then returns normally
    unless the deferred function panics itself. *)
Definition defer_recover (deferred : any -> M unit) (body : M unit) : M unit :=
  fun w =>
  match body w with
  | (Normal _, w1) => deferred None w1
  | (Panic v, w1) => deferred v w1
  end.

(** Runs the calls of a list one after the other. *)
Fixpoint sequence (cs : list (M unit)) : M unit :=
  match cs with
  | [] => ret tt
  | c :: cs' => c ;; sequence cs'
  end.

(** ** The collaborators of the package *)

(** *** [context] *)

(** The cancel function that [WithCancel] returns with the context [id]. *)
Definition cancel (id : nat) : M unit :=
  modify (set_cancelled (fun s => {[id]} ∪ s)).

Definition WithCancel (parent : context) : M (context * M unit) := fun w =>
  let id := next_object w in
  (Normal (CancelCtx id parent, cancel id), set_next_object S w).

(** Whether [c.Done()] is closed: a context is cancelled with its parent. *)
Fixpoint done (w : World) (c : context) : bool :=
  match c with
  | Background => false
  | CancelCtx id parent => bool_decide (id ∈ cancelled w) || done w parent
  | ValueCtx _ parent _ _ => done w parent
  end.

(** *** [http.ResponseWriter] *)

Definition record_status (id : nat) (code : Z)
  (ws : gmap nat wrapperState) : gmap nat wrapperState :=
  alter (fun st => mkWrapperState code (size st)) id ws.

Definition record_size (id : nat) (n : Z)
  (ws : gmap nat wrapperState) : gmap nat wrapperState :=
  alter (fun st => mkWrapperState (status st) (size st + n)%Z) id ws.

(** Modelled from the spec: the [WriteHeader] method of the response wrapper
    (response_writer.go is not among the sources).  The wrapper "decorates
    the raw response writer to record the numeric status code and byte count
    written": the call is forwarded, then the status is recorded. *)
Definition responseWriter_WriteHeader (id : nat) (code : Z) (forward : M unit)
  : M unit :=
  forward ;;
  modify (set_wrappers (record_status id code)).

(** Modelled from the spec: the [Write] method of the response wrapper
    (response_writer.go is not among the sources).  The data is forwarded
    "without altering response body content" and the byte count recorded. *)
Definition responseWriter_Write (id : nat) (forward : M Z) : M Z :=
  n <- forward ;;
  modify (set_wrappers (record_size id n)) ;;
  ret n.

(** [rw.WriteHeader(code)]: a writer of the host records the call. *)
Fixpoint WriteHeader (rw : ResponseWriter) (code : Z) : M unit :=
  match rw with
  | RawWriter id => modify (set_wire (fun l => l ++ [(id, CallWriteHeader code)]))
  | Wrapper id inner => responseWriter_WriteHeader id code (WriteHeader inner code)
  end.

(** [rw.Write(data)], which yields the number of bytes written. *)
Fixpoint Write (rw : ResponseWriter) (data : string) : M Z :=
  match rw with
  | RawWriter id =>
      modify (set_wire (fun l => l ++ [(id, CallWrite data)])) ;;
      ret (Z.of_nat (String.length data))
  | Wrapper id inner => responseWriter_Write id (Write inner data)
  end.

(** The writer of the host that the calls on [rw] reach. *)
Fixpoint underlying (rw : ResponseWriter) : nat :=
  match rw with
  | RawWriter id => id
  | Wrapper _ inner => underlying inner
  end.

(** Modelled from the spec: [NewResponseWriter] of response_writer.go is not
    among the sources; the wrapper it allocates has recorded no status and
    no byte yet. *)
Definition NewResponseWriter (rw : ResponseWriter) : M ResponseWriter := fun w =>
  let id := next_object w in
  (Normal (Wrapper id rw),
   set_wrappers (insert id (mkWrapperState 0 0)) (set_next_object S w)).

(** A plain [http.Handler], nil when [None]. *)
Definition http_Handler : Type := option (ResponseWriter -> Request -> M unit).

Definition http_ServeHTTP (h : http_Handler) (rw : ResponseWriter) (r : Request)
  : M unit :=
  match h with
  | Some f => f rw r
  | None => panic (Some nil_dereference)
  end.

Definition StatusInternalServerError : Z := 500.

(** *** [log], [fmt] and [runtime] *)

(** [l.Printf] with the message already formatted; [l] is a [*log.Logger]. *)
Definition Printf (l : option logger) (message : string) : M unit :=
  match l with
  | None => panic (Some nil_dereference)
  | Some l =>
      modify (set_logged (fun ls =>
        ls ++ [mkLogLine (logger_out l) (logger_prefix l) message]))
  end.

Definition render (v : value) : string :=
  match v with
  | VString s => s
  | VError msg => msg
  | VOther rendered => rendered
  end.

Definition newline : string := String (Ascii.ascii_of_nat 10) EmptyString.

(** [fmt.Sprintf("PANIC: %s\n%s", err, stack)] *)
Definition format_panic (err : value) (stack : string) : string :=
  ("PANIC: " ++ render err ++ newline ++ stack)%string.

(** [fmt.Fprintf(rw, f, ...)] with the message already formatted: one call
    of [rw.Write], whose results are dropped. *)
Definition Fprintf (rw : ResponseWriter) (message : string) : M unit :=
  _ <- Write rw message ;; ret tt.

Definition makeslice_error : value :=
  VError "runtime error: makeslice: len out of range"%string.

(** [maxAlloc] of the runtime on the 64-bit platforms: [make([]byte, n)]
    panics with "makeslice: len out of range" when [n] is negative or above
    it. *)
Definition maxAlloc : Z := 2 ^ 48.

(** [stack := make([]byte, n); stack = stack[:runtime.Stack(stack, all)]]:
    the trace of the runtime, cut at the length of the buffer. *)
Definition capture_stack (n : Z) (all : bool) : M string :=
  if ((n <? 0)%Z || (maxAlloc <? n)%Z)%bool then panic (Some makeslice_error)
  else gets (fun w => substring 0 (Z.to_nat n) (stack_dump w all)).

(** *** The shared context store *)

Definition store_Get (r : Request) : M Context :=
  gets (fun w => SingleSlot.Get (sharedContextStore w) r).

Definition store_Add (r : Request) (c : Context) : M unit :=
  modify (set_store (SingleSlot.Add r c)).

Definition store_Remove (r : Request) : M unit :=
  modify (set_store (SingleSlot.Remove r)).

(** ** camillo.go *)

Definition NextFunc : Type := Context -> ResponseWriter -> Request -> M unit.

Definition HandlerFunc : Type :=
  Context -> ResponseWriter -> Request -> NextFunc -> M unit.

(** The interface [Handler]: a value is its [ServeHTTP] method, and [None]
    is the nil interface. *)
Definition Handler : Type := option HandlerFunc.

Definition Handler_ServeHTTP (h : Handler) : HandlerFunc :=
  match h with
  | Some f => f
  | None => fun _ _ _ _ => panic (Some nil_dereference)
  end.

#[warnings="-register-all"]
Inductive middleware : Type :=
| Middleware (handler : Handler) (next : option middleware).

Definition middleware_handler (m : middleware) : Handler :=
  match m with Middleware h _ => h end.

Definition middleware_next (m : middleware) : option middleware :=
  match m with Middleware _ n => n end.

(** The zero value [middleware{}]. *)
Definition empty_middleware : middleware := Middleware None None.

(** [m.next.ServeHTTP] is a method value with a value receiver: it
    dereferences [m.next] when the arguments of the call are evaluated. *)
Fixpoint middleware_ServeHTTP (m : middleware) (c : Context)
  (rw : ResponseWriter) (r : Request) : M unit :=
  match m with
  | Middleware h None => panic (Some nil_dereference)
  | Middleware h (Some n) => Handler_ServeHTTP h c rw r (middleware_ServeHTTP n)
  end.

Definition Wrap (handler : http_Handler) : Handler :=
  Some (fun c rw r next =>
    store_Add r c ;;
    http_ServeHTTP handler rw r ;;
    c' <- store_Get r ;;
    next c' rw r).

Definition void_handler : HandlerFunc := fun _ _ _ _ => ret tt.

Definition voidMiddleware : middleware :=
  Middleware (Some void_handler) (Some empty_middleware).

Fixpoint build (handlers : list Handler) : middleware :=
  match handlers with
  | [] => voidMiddleware
  | h :: tl =>
      let next := match tl with
                  | _ :: _ => build tl
                  | [] => voidMiddleware
                  end in
      Middleware h (Some next)
  end.

Record Camillo : Type := mkCamillo {
  camillo_ctx : Context;
  camillo_middleware : middleware;
  camillo_handlers : list Handler
}.

Definition NewWithContext (c : Context) (handlers : list Handler) : Camillo :=
  mkCamillo c (build handlers) handlers.

Definition New (handlers : list Handler) : Camillo :=
  NewWithContext (Some Background) handlers.

Definition Camillo_ServeHTTP (n : Camillo) (rw : ResponseWriter) (r : Request)
  : M unit :=
  found <- store_Get r ;;
  match found with
  | Some _ =>
      rw' <- NewResponseWriter rw ;;
      middleware_ServeHTTP (camillo_middleware n) found rw' r
  | None =>
      let base := match camillo_ctx n with
                  | None => Background
                  | Some c => c
                  end in
      derived <- WithCancel base ;;
      defer (snd derived)
        (store_Add r (Some (fst derived)) ;;
         defer (store_Remove r)
           (rw' <- NewResponseWriter rw ;;
            middleware_ServeHTTP (camillo_middleware n) (Some (fst derived)) rw' r))
  end.

Definition Use (handler : Handler) (n : Camillo) : Camillo :=
  let handlers := camillo_handlers n ++ [handler] in
  mkCamillo (camillo_ctx n) (build handlers) handlers.

Definition UseFunc (handlerFunc : HandlerFunc) (n : Camillo) : Camillo :=
  Use (Some handlerFunc) n.

Definition UseHandler (handler : http_Handler) (n : Camillo) : Camillo :=
  Use (Wrap handler) n.

Definition Handlers (n : Camillo) : list Handler := camillo_handlers n.

(** ** recovery.go *)

Record Recovery : Type := mkRecovery {
  Logger : option logger;
  PrintStack : bool;
  StackAll : bool;
  StackSize : Z
}.

Definition NewRecovery : Recovery :=
  mkRecovery (Some (mkLogger os_Stdout "[camillo] ")) true false (1024 * 8).

(** The deferred function of [Recovery.ServeHTTP], given what [recover]
    returned. *)
Definition Recovery_recovered (rec : Recovery) (rw : ResponseWriter) (err : any)
  : M unit :=
  match err with
  | None => ret tt
  | Some e =>
      WriteHeader rw StatusInternalServerError ;;
      stack <- capture_stack (StackSize rec) (StackAll rec) ;;
      Printf (Logger rec) (format_panic e stack) ;;
      if PrintStack rec then Fprintf rw (format_panic e stack) else ret tt
  end.

Definition Recovery_ServeHTTP (rec : Recovery) : HandlerFunc :=
  fun c rw r next => defer_recover (Recovery_recovered rec rw) (next c rw r).

(** ** Vocabulary of the statements *)

(** The part of a handler that runs before, or after, its call of [next]. *)
Definition Part : Type := Context -> ResponseWriter -> Request -> M unit.

(** A handler that runs [before], calls [next] once with the arguments it
    has received, and then runs [after]. *)
Definition calls_next_once (h : Handler) (before after : Part) : Prop :=
  forall c rw r (next : NextFunc) w,
    Handler_ServeHTTP h c rw r next w
    = (before c rw r ;; next c rw r ;; after c rw r) w.

Record layer : Type := mkLayer {
  layer_handler : Handler;
  layer_before : Part;
  layer_after : Part
}.

(** A call that does not delete the entry of a request from the shared
    store. *)
Definition keeps_entry {A} (r : Request) (call : M A) : Prop :=
  forall w,
    SingleSlot.has_entry (sharedContextStore w) r ->
    SingleSlot.has_entry (sharedContextStore (snd (call w))) r.

(** The resolved base context of an instance. *)
Definition base_context (n : Camillo) : context :=
  match camillo_ctx n with
  | None => Background
  | Some c => c
  end.

(** The state on which the chain head runs in a dispatch that has found no
    context: a cancel context and a response wrapper have been allocated,
    and the context is registered. *)
Definition fresh_head (n : Camillo) (r : Request) (w : World) : World :=
  set_wrappers (insert (S (next_object w)) (mkWrapperState 0 0))
    (set_next_object S
       (set_store
          (SingleSlot.Add r (Some (CancelCtx (next_object w) (base_context n))))
          (set_next_object S w))).

(** The state on which the chain head runs in a dispatch that has found a
    context: a response wrapper has been allocated. *)
Definition found_head (w : World) : World :=
  set_wrappers (insert (next_object w) (mkWrapperState 0 0))
    (set_next_object S w).

(** A handler that prints one line before and one line after [next]. *)
Definition announce (l : logger) (name : string) : Handler :=
  Some (fun c rw r next =>
    Printf (Some l) ("before " ++ name)%string ;;
    next c rw r ;;
    Printf (Some l) ("after " ++ name)%string).

Definition stdout_logger : logger := mkLogger os_Stdout "".

Definition announce_layer (name : string) : layer :=
  mkLayer (announce stdout_logger name)
          (fun _ _ _ => Printf (Some stdout_logger) ("before " ++ name)%string)
          (fun _ _ _ => Printf (Some stdout_logger) ("after " ++ name)%string).

Definition no_dump : bool -> string := fun _ => ""%string.

(** The parts of the state that a call on a response writer leaves alone. *)
Definition same_but_response (w w' : World) : Prop :=
  sharedContextStore w' = sharedContextStore w
  /\ cancelled w' = cancelled w
  /\ logged w' = logged w
  /\ stack_dump w' = stack_dump w.

(** A downstream handler that panics with a given value. *)
Definition panicking (v : any) : NextFunc := fun _ _ _ => panic v.

(** ** Vocabulary of the further statements *)

(** Whether a call writes the slot of a request. *)
Definition slot_touches (req : Request) (o : SingleSlot.op) : bool :=
  match o with
  | SingleSlot.OpAdd r _ => bool_decide (r = req)
  | SingleSlot.OpRemove r => bool_decide (r = req)
  | SingleSlot.OpGet _ => false
  end.

(** Whether a call is a [Push] or a [Pop] for a request. *)
Definition stack_touches (req : Request) (o : Stacked.op) : bool :=
  match o with
  | Stacked.OpPush r _ => bool_decide (r = req)
  | Stacked.OpPop r _ => bool_decide (r = req)
  | Stacked.OpGet _ => false
  end.

(** Pushes the contexts of a list for a request, the first one first. *)
Definition push_all (req : Request) (cs : list (option context))
  (s : Stacked.contextStore) : Stacked.contextStore :=
  fold_left (fun s c => Stacked.Push req c s) cs s.

(** Pops the contexts of a list for a request, the first one first; the
    first panic ends the run. *)
Fixpoint pop_all (req : Request) (cs : list (option context))
  (s : Stacked.contextStore) : Result unit * Stacked.contextStore :=
  match cs with
  | [] => (Normal tt, s)
  | c :: cs' =>
      match Stacked.Pop req c s with
      | (Normal _, s') => pop_all req cs' s'
      | (Panic v, s') => (Panic v, s')
      end
  end.

(** No request is mapped to an empty stack. *)
Definition no_empty_stack (s : Stacked.contextStore) : Prop :=
  match Stacked.contexts s with
  | None => True
  | Some m => forall r, m !! r <> Some []
  end.

(** The handlers of the nodes of a chain, from its head. *)
Fixpoint chain_handlers (m : middleware) : list Handler :=
  match m with
  | Middleware h None => [h]
  | Middleware h (Some n) => h :: chain_handlers n
  end.

(** A handler that runs [body] and never calls [next]. *)
Definition ignores_next (h : Handler) (body : Part) : Prop :=
  forall c rw r (next : NextFunc) w,
    Handler_ServeHTTP h c rw r next w = body c rw r w.

(** [http.HandlerFunc(handlerFunc)] is a plain handler that calls the
    function. *)
Definition UseHandlerFunc (handlerFunc : ResponseWriter -> Request -> M unit)
  (n : Camillo) : Camillo :=
  UseHandler (Some handlerFunc) n.

(** The recovery middleware as a value of the interface [Handler]. *)
Definition Recovery_handler (rec : Recovery) : Handler :=
  Some (Recovery_ServeHTTP rec).

(** A [*Camillo] as a plain [http.Handler]. *)
Definition Camillo_handler (n : Camillo) : http_Handler :=
  Some (Camillo_ServeHTTP n).

(** * Properties *)

(** ** The context store *)

Section SingleSlotStore.
Import SingleSlot.

Lemma Get_Add s req c : Get (Add req c s) req = c.
Proof. unfold Get, Add; simpl. by rewrite lookup_insert_eq. Qed.

Lemma Get_Add_ne s req req' c : req <> req' -> Get (Add req c s) req' = Get s req'.
Proof.
  intros Hne. unfold Get, Add; simpl.
  rewrite lookup_insert_ne by done.
  destruct (contexts s); [done|]. by rewrite lookup_empty.
Qed.

Lemma Get_Remove s req : Get (Remove req s) req = None.
Proof.
  unfold Get, Remove. destruct (contexts s) eqn:E; simpl.
  - by rewrite lookup_delete_eq.
  - by rewrite E.
Qed.

Lemma Get_Remove_ne s req req' : req <> req' -> Get (Remove req s) req' = Get s req'.
Proof.
  intros Hne. unfold Get, Remove. destruct (contexts s) eqn:E; simpl.
  - by rewrite lookup_delete_ne.
  - by rewrite E.
Qed.

Lemma has_entry_Add s req c : has_entry (Add req c s) req.
Proof. unfold has_entry, Add; simpl. rewrite lookup_insert_eq. by eexists. Qed.

Lemma no_entry_Remove s req : ~ has_entry (Remove req s) req.
Proof.
  unfold has_entry, Remove. destruct (contexts s) eqn:E; simpl.
  - rewrite lookup_delete_eq. by intros [? ?].
  - rewrite E. tauto.
Qed.

Lemma Get_apply_op_not_added s req o :
  adds req o = false -> Get s req = None -> Get (apply_op s o) req = None.
Proof.
  destruct o as [r c|r|r]; simpl; intros Ho Hs.
  - apply bool_decide_eq_false in Ho. by rewrite Get_Add_ne.
  - destruct (decide (r = req)) as [->|Hne].
    + apply Get_Remove.
    + by rewrite Get_Remove_ne.
  - done.
Qed.

Lemma Get_run_not_added ops s req :
  Forall (fun o => adds req o = false) ops ->
  Get s req = None -> Get (run ops s) req = None.
Proof.
  unfold run. intros Hops. revert s.
  induction Hops as [|o ops Ho _ IH]; intros s Hs; simpl; [done|].
  apply IH. by apply Get_apply_op_not_added.
Qed.

End SingleSlotStore.

Section StackedStore.
Import Stacked.

Lemma Get_stacked s req :
  Get s req = match last (stacked s req) with
              | None => None
              | Some c => c
              end.
Proof. unfold Get, stacked. by destruct (contexts s). Qed.

Lemma stacked_Push s req c : stacked (Push req c s) req = stacked s req ++ [c].
Proof.
  unfold stacked, Push, stack_at; simpl. rewrite lookup_insert_eq.
  destruct (contexts s); [done|]. by rewrite lookup_empty.
Qed.

Lemma stacked_Push_ne s req req' c :
  req <> req' -> stacked (Push req c s) req' = stacked s req'.
Proof.
  intros Hne. unfold stacked, Push, stack_at; simpl.
  rewrite lookup_insert_ne by done.
  destruct (contexts s); [done|]. by rewrite lookup_empty.
Qed.

Lemma Get_Push s req c : Get (Push req c s) req = c.
Proof. by rewrite Get_stacked, stacked_Push, last_snoc. Qed.

Lemma take_snoc_length (l : list (option context)) c :
  take (length (l ++ [c]) - 1) (l ++ [c]) = l.
Proof.
  rewrite length_app; simpl.
  replace (length l + 1 - 1) with (length l) by lia.
  by rewrite take_app_length.
Qed.

(** A [Pop] that matches the [Push] before it returns, and leaves the
    stack of the request as it was before the [Push]. *)
Lemma Pop_Push s req c :
  exists s', Pop req c (Push req c s) = (Normal tt, s')
             /\ stacked s' req = stacked s req.
Proof.
  unfold Pop. simpl.
  set (m := match contexts s with Some m => m | None => ∅ end).
  assert (Hm : stack_at m req = stacked s req).
  { unfold stacked, m. destruct (contexts s); [done|].
    unfold stack_at. by rewrite lookup_empty. }
  assert (Hst : stack_at (<[req := stack_at m req ++ [c]]> m) req
                = stack_at m req ++ [c]).
  { unfold stack_at at 1. by rewrite lookup_insert_eq. }
  rewrite Hst, last_snoc. rewrite decide_True by done.
  rewrite take_snoc_length, Hm.
  destruct (stacked s req) as [|top rest] eqn:E.
  - eexists; split; [done|].
    unfold stacked, stack_at; simpl. by rewrite lookup_delete_eq.
  - eexists; split; [done|].
    unfold stacked, stack_at; simpl. by rewrite lookup_insert_eq.
Qed.

Lemma stacked_Pop_ne s req req' c :
  req <> req' -> stacked (snd (Pop req c s)) req' = stacked s req'.
Proof.
  intros Hne. unfold Pop.
  destruct (contexts s) as [m|] eqn:E; [|done].
  destruct (last (stack_at m req)) as [top|]; [|done].
  destruct (decide (top = c)); [|done].
  destruct (take _ _); simpl; unfold stacked; rewrite E; simpl;
    unfold stack_at.
  - by rewrite lookup_delete_ne.
  - by rewrite lookup_insert_ne.
Qed.

Lemma stacked_Pop_empty s req c :
  stacked s req = [] -> snd (Pop req c s) = s.
Proof.
  unfold stacked, Pop. destruct (contexts s) as [m|]; [|done].
  intros ->. done.
Qed.

Lemma stacked_apply_op_not_pushed s req o :
  pushes req o = false ->
  stacked s req = [] -> stacked (apply_op s o) req = [].
Proof.
  destruct o as [r c|r c|r]; simpl; intros Ho Hs.
  - apply bool_decide_eq_false in Ho. by rewrite stacked_Push_ne.
  - destruct (decide (r = req)) as [->|Hne].
    + by rewrite stacked_Pop_empty.
    + by rewrite stacked_Pop_ne.
  - done.
Qed.

Lemma stacked_run_not_pushed ops s req :
  Forall (fun o => pushes req o = false) ops ->
  stacked s req = [] -> stacked (run ops s) req = [].
Proof.
  unfold run. intros Hops. revert s.
  induction Hops as [|o ops Ho _ IH]; intros s Hs; simpl; [done|].
  apply IH. by apply stacked_apply_op_not_pushed.
Qed.

End StackedStore.

(** C4.  In both variants of the store: [Get] of a request that no call has
    added (or pushed) since the program started returns nil; [Get] right
    after [Add] (or [Push]) of a context for the request returns that
    context; [Get] after [Remove], or after the [Pop] that matches the
    [Push] of the only stacked context, returns nil again, and that [Pop]
    returns without a panic. *)
Theorem store_get_add_remove
  (req : Request) (c : Context)
  (ops1 : list SingleSlot.op) (s1 : SingleSlot.contextStore)
  (ops2 : list Stacked.op) (s2 s3 : Stacked.contextStore) :
  Forall (fun o => SingleSlot.adds req o = false) ops1 ->
  Forall (fun o => Stacked.pushes req o = false) ops2 ->
  Stacked.stacked s3 req = [] ->
  SingleSlot.Get (SingleSlot.run ops1 SingleSlot.zero) req = None
  /\ SingleSlot.Get (SingleSlot.Add req c s1) req = c
  /\ SingleSlot.Get (SingleSlot.Remove req (SingleSlot.Add req c s1)) req = None
  /\ SingleSlot.Get (SingleSlot.Remove req s1) req = None
  /\ Stacked.Get (Stacked.run ops2 Stacked.zero) req = None
  /\ Stacked.Get (Stacked.Push req c s2) req = c
  /\ exists s', Stacked.Pop req c (Stacked.Push req c s3) = (Normal tt, s')
                /\ Stacked.Get s' req = None.
Proof.
  intros Hops1 Hops2 Hs3. repeat split.
  - by apply Get_run_not_added.
  - apply Get_Add.
  - apply Get_Remove.
  - apply Get_Remove.
  - rewrite Get_stacked, stacked_run_not_pushed; done.
  - apply Get_Push.
  - destruct (Pop_Push s3 req c) as (s' & HPop & Hst).
    exists s'. split; [done|]. by rewrite Get_stacked, Hst, Hs3.
Qed.

(** An instance of [store_get_add_remove]: request 1 after calls on
    request 2 only. *)
Lemma store_get_add_remove_witness :
  SingleSlot.Get
    (SingleSlot.run [SingleSlot.OpAdd 2 (Some Background); SingleSlot.OpRemove 1]
                    SingleSlot.zero) 1 = None
  /\ Stacked.Get
       (Stacked.run [Stacked.OpPush 2 (Some Background); Stacked.OpPop 1 None]
                    Stacked.zero) 1 = None
  /\ exists s', Stacked.Pop 1 (Some Background)
                  (Stacked.Push 1 (Some Background)
                     (Stacked.Push 2 None Stacked.zero)) = (Normal tt, s')
                /\ Stacked.Get s' 1 = None.
Proof.
  destruct (store_get_add_remove 1 (Some Background)
              [SingleSlot.OpAdd 2 (Some Background); SingleSlot.OpRemove 1]
              SingleSlot.zero
              [Stacked.OpPush 2 (Some Background); Stacked.OpPop 1 None]
              Stacked.zero (Stacked.Push 2 None Stacked.zero))
    as (H1 & _ & _ & _ & H5 & _ & H7).
  - repeat constructor.
  - repeat constructor.
  - vm_compute. reflexivity.
  - exact (conj H1 (conj H5 H7)).
Defined.

(** C5 (as amended).  In the stack variant, once the map of the store is
    allocated, a [Pop] whose context is not the one on top of the stack of
    the request (in particular when nothing is stacked for it) panics with
    "unbalanced Push/Pop calls" and leaves the store as it was. *)
Theorem pop_unbalanced_panics
  (req : Request) (c : Context) (m : gmap nat (list (option context))) :
  last (Stacked.stack_at m req) <> Some c ->
  Stacked.Pop req c (Stacked.mkStore (Some m))
  = (Panic (Some unbalanced), Stacked.mkStore (Some m)).
Proof.
  intros Hne. unfold Stacked.Pop; simpl.
  destruct (last (Stacked.stack_at m req)) as [top|]; [|done].
  rewrite decide_False; [done|]. congruence.
Qed.

(** An instance of [pop_unbalanced_panics]: the background context is on
    top, and the nil context is popped. *)
Lemma pop_unbalanced_panics_witness :
  last (Stacked.stack_at {[1 := [Some Background]]} 1) <> Some None
  /\ Stacked.Pop 1 None (Stacked.mkStore (Some {[1 := [Some Background]]}))
     = (Panic (Some unbalanced),
        Stacked.mkStore (Some {[1 := [Some Background]]})).
Proof.
  assert (H : last (Stacked.stack_at {[1 := [Some Background]]} 1) <> Some None).
  { vm_compute. discriminate. }
  split; [exact H|].
  exact (pop_unbalanced_panics 1 None {[1 := [Some Background]]} H).
Defined.

(** C5 (as stated) fails on the store that has never been used: nothing is
    stacked for request 1, and [Pop] returns without a panic. *)
Lemma pop_on_zero_store_returns :
  Stacked.stacked Stacked.zero 1 = []
  /\ last (Stacked.stacked Stacked.zero 1) <> Some (Some Background)
  /\ Stacked.Pop 1 (Some Background) Stacked.zero = (Normal tt, Stacked.zero).
Proof. repeat split. discriminate. Qed.

(** C9.  Every method is total on the zero value of the store, in both
    variants: [Get] returns nil, [Remove] and [Pop] return and leave the
    store as it is, [Add] and [Push] allocate the map and store the
    context.  The shared store of a program that starts is that zero value,
    and the calls of the package on it return without a panic. *)
Theorem zero_store_total (req : Request) (c : Context) (dump : bool -> string) :
  SingleSlot.Get SingleSlot.zero req = None
  /\ SingleSlot.Remove req SingleSlot.zero = SingleSlot.zero
  /\ SingleSlot.contexts (SingleSlot.Add req c SingleSlot.zero)
     = Some {[req := c]}
  /\ SingleSlot.Get (SingleSlot.Add req c SingleSlot.zero) req = c
  /\ Stacked.Get Stacked.zero req = None
  /\ Stacked.Pop req c Stacked.zero = (Normal tt, Stacked.zero)
  /\ Stacked.contexts (Stacked.Push req c Stacked.zero) = Some {[req := [c]]}
  /\ Stacked.Get (Stacked.Push req c Stacked.zero) req = c
  /\ sharedContextStore (initial dump) = SingleSlot.zero
  /\ store_Get req (initial dump) = (Normal None, initial dump)
  /\ store_Remove req (initial dump) = (Normal tt, initial dump)
  /\ store_Add req c (initial dump)
     = (Normal tt, set_store (fun _ => SingleSlot.mkStore (Some {[req := c]}))
                     (initial dump)).
Proof.
  repeat split.
  - apply Get_Add.
  - apply Get_Push.
Qed.

(** ** Calls *)

Lemma bind_ext {A B} (c c' : M A) (k k' : A -> M B) w :
  c w = c' w ->
  (forall a w', k a w' = k' a w') ->
  bind c k w = bind c' k' w.
Proof.
  intros Hc Hk. unfold bind. rewrite Hc.
  destruct (c' w) as [[a|v] w']; [apply Hk|done].
Qed.

Lemma bind_assoc {A B C} (c : M A) (k : A -> M B) (k' : B -> M C) w :
  bind (bind c k) k' w = bind c (fun a => bind (k a) k') w.
Proof. unfold bind. by destruct (c w) as [[a|v] w']. Qed.

Lemma bind_ret_l {A B} (a : A) (k : A -> M B) w : bind (ret a) k w = k a w.
Proof. done. Qed.

Lemma bind_ret_r (c : M unit) w : bind c (fun _ => ret tt) w = c w.
Proof. unfold bind, ret. by destruct (c w) as [[[]|v] w']. Qed.

Lemma sequence_app (cs cs' : list (M unit)) w :
  sequence (cs ++ cs') w = (sequence cs ;; sequence cs') w.
Proof.
  revert w. induction cs as [|c cs IH]; intros w; simpl; [done|].
  rewrite bind_assoc. apply bind_ext; [done|]. intros _ w'. apply IH.
Qed.

(** ** The chain *)

Lemma build_cons h tl : build (h :: tl) = Middleware h (Some (build tl)).
Proof. by destruct tl. Qed.

Lemma voidMiddleware_ServeHTTP c rw r w :
  middleware_ServeHTTP voidMiddleware c rw r w = (Normal tt, w).
Proof. done. Qed.

(** C1.  When every handler of the list runs its "before" part, calls
    [next] once and then runs its "after" part, a dispatch through the chain
    built from the list is the run of the "before" parts in the order of the
    list followed by the run of the "after" parts in the reverse order. *)
Theorem chain_runs_as_onion
  (layers : list layer) (c : Context) (rw : ResponseWriter) (r : Request)
  (w : World) :
  Forall (fun l => calls_next_once (layer_handler l) (layer_before l)
                                   (layer_after l)) layers ->
  middleware_ServeHTTP (build (map layer_handler layers)) c rw r w
  = (sequence (map (fun l => layer_before l c rw r) layers) ;;
     sequence (map (fun l => layer_after l c rw r) (rev layers))) w.
Proof.
  intros Hls. revert w.
  induction Hls as [|l ls Hl _ IH]; intros w; [done|].
  cbn [map]. rewrite build_cons. cbn [middleware_ServeHTTP].
  rewrite Hl. cbn [rev sequence]. rewrite map_app. cbn [map].
  rewrite bind_assoc. apply bind_ext; [done|]. intros _ w1.
  etransitivity.
  { apply bind_ext; [apply IH|]. intros; reflexivity. }
  rewrite bind_assoc. apply bind_ext; [done|]. intros _ w2.
  rewrite sequence_app. apply bind_ext; [done|]. intros _ w3.
  cbn [sequence]. by rewrite bind_ret_r.
Qed.

(** An instance of [chain_runs_as_onion]: three handlers that print a line
    on each side of [next]. *)
Lemma chain_runs_as_onion_witness :
  map line_message
    (logged (snd (middleware_ServeHTTP
                    (build [announce stdout_logger "a";
                            announce stdout_logger "b";
                            announce stdout_logger "c"])
                    (Some Background) (RawWriter 0) 1 (initial no_dump))))
  = ["before a"; "before b"; "before c"; "after c"; "after b"; "after a"]%string.
Proof.
  change [announce stdout_logger "a"; announce stdout_logger "b";
          announce stdout_logger "c"]
    with (map layer_handler
            [announce_layer "a"; announce_layer "b"; announce_layer "c"]).
  rewrite (chain_runs_as_onion
             [announce_layer "a"; announce_layer "b"; announce_layer "c"]).
  - vm_compute. reflexivity.
  - repeat constructor.
Defined.

(** ** The dispatcher *)

Lemma Camillo_ServeHTTP_fresh n rw r w :
  SingleSlot.Get (sharedContextStore w) r = None ->
  Camillo_ServeHTTP n rw r w
  = let out := middleware_ServeHTTP (camillo_middleware n)
                 (Some (CancelCtx (next_object w) (base_context n)))
                 (Wrapper (S (next_object w)) rw) r (fresh_head n r w) in
    (fst out,
     set_cancelled (fun s => {[next_object w]} ∪ s)
       (set_store (SingleSlot.Remove r) (snd out))).
Proof.
  intros Hget.
  unfold Camillo_ServeHTTP, bind, store_Get, gets. rewrite Hget.
  unfold WithCancel, defer, store_Add, store_Remove, modify, NewResponseWriter.
  cbn [fst snd]. fold (base_context n).
  change (middleware_ServeHTTP _ _ _ r _)
    with (middleware_ServeHTTP (camillo_middleware n)
            (Some (CancelCtx (next_object w) (base_context n)))
            (Wrapper (S (next_object w)) rw) r (fresh_head n r w)).
  by destruct (middleware_ServeHTTP _ _ _ r _) as [res w_ret].
Qed.

Lemma Camillo_ServeHTTP_found n rw r c w :
  SingleSlot.Get (sharedContextStore w) r = Some c ->
  Camillo_ServeHTTP n rw r w
  = middleware_ServeHTTP (camillo_middleware n) (Some c)
      (Wrapper (next_object w) rw) r (found_head w).
Proof.
  intros Hget.
  unfold Camillo_ServeHTTP, bind, store_Get, gets. by rewrite Hget.
Qed.

Lemma done_found_head w c : done (found_head w) c = done w c.
Proof.
  induction c as [|i p IH|i p IH k v]; cbn [done]; [done| |done].
  by rewrite IH.
Qed.

(** C2.  When [Get] finds no context for the request, the dispatcher derives
    a cancel context from the base context of the instance (the background
    context when none is configured) and registers it under the request; the
    chain head is invoked with it on a state whose store yields it for the
    request and in which the dispatcher has cancelled nothing; whatever the
    outcome of the chain (a return or a panic, which propagates), the
    dispatch ends with the entry of the request removed and the context
    cancelled. *)
Theorem fresh_dispatch_owns_context
  (n : Camillo) (rw : ResponseWriter) (r : Request) (w : World) :
  SingleSlot.Get (sharedContextStore w) r = None ->
  let id := next_object w in
  let c := CancelCtx id (base_context n) in
  let rw' := Wrapper (S id) rw in
  let w_head := fresh_head n r w in
  let out := middleware_ServeHTTP (camillo_middleware n) (Some c) rw' r w_head in
  let w_end :=
    set_cancelled (fun s => {[id]} ∪ s)
      (set_store (SingleSlot.Remove r) (snd out)) in
  base_context (NewWithContext None (camillo_handlers n)) = Background
  /\ SingleSlot.Get (sharedContextStore w_head) r = Some c
  /\ cancelled w_head = cancelled w
  /\ Camillo_ServeHTTP n rw r w = (fst out, w_end)
  /\ ~ SingleSlot.has_entry (sharedContextStore w_end) r
  /\ SingleSlot.Get (sharedContextStore w_end) r = None
  /\ done w_end c = true.
Proof.
  intros Hget id c rw' w_head out w_end.
  split; [done|]. split; [apply Get_Add|]. split; [done|].
  split; [|split; [|split]].
  - by rewrite Camillo_ServeHTTP_fresh.
  - apply no_entry_Remove.
  - apply Get_Remove.
  - cbn [done]. apply orb_true_intro. left.
    apply bool_decide_eq_true. subst w_end. cbn. set_solver.
Qed.

(** An instance of [fresh_dispatch_owns_context]: the only handler panics;
    the panic leaves the dispatcher, the entry is gone and the context is
    cancelled. *)
Lemma fresh_dispatch_owns_context_witness :
  exists w_end,
    Camillo_ServeHTTP
      (New [Some (fun _ _ _ _ => panic (Some (VString "boom")))])
      (RawWriter 0) 1 (initial no_dump)
    = (Panic (Some (VString "boom")), w_end)
    /\ SingleSlot.Get (sharedContextStore w_end) 1 = None
    /\ done w_end (CancelCtx 0 Background) = true.
Proof.
  destruct (fresh_dispatch_owns_context
              (New [Some (fun _ _ _ _ => panic (Some (VString "boom")))])
              (RawWriter 0) 1 (initial no_dump) eq_refl)
    as (_ & _ & _ & Hrun & _ & Hget & Hdone).
  eexists. split; [exact Hrun|]. split; [exact Hget|exact Hdone].
Defined.

(** C3.  When [Get] finds a context for the request, the dispatcher
    allocates a response wrapper, which changes neither the store nor the
    cancelled contexts, and invokes the chain head with the context found;
    the outcome and the final state of the dispatch are those of the chain:
    the dispatcher itself adds nothing, removes nothing and cancels
    nothing. *)
Theorem reentrant_dispatch_borrows_context
  (n : Camillo) (rw : ResponseWriter) (r : Request) (c : context) (w : World) :
  SingleSlot.Get (sharedContextStore w) r = Some c ->
  let rw' := Wrapper (next_object w) rw in
  let w_head := found_head w in
  NewResponseWriter rw w = (Normal rw', w_head)
  /\ sharedContextStore w_head = sharedContextStore w
  /\ cancelled w_head = cancelled w
  /\ done w_head c = done w c
  /\ Camillo_ServeHTTP n rw r w
     = middleware_ServeHTTP (camillo_middleware n) (Some c) rw' r w_head.
Proof.
  intros Hget rw' w_head.
  split; [done|]. split; [done|]. split; [done|].
  split; [apply done_found_head|]. by apply Camillo_ServeHTTP_found.
Qed.

(** An instance of [reentrant_dispatch_borrows_context]: a dispatch with
    no handler while the store holds the background context for request 1
    leaves the store and the cancelled contexts as they were. *)
Lemma reentrant_dispatch_borrows_context_witness :
  let w := set_store (SingleSlot.Add 1 (Some Background)) (initial no_dump) in
  let w_end := snd (Camillo_ServeHTTP (New []) (RawWriter 0) 1 w) in
  fst (Camillo_ServeHTTP (New []) (RawWriter 0) 1 w) = Normal tt
  /\ sharedContextStore w_end = sharedContextStore w
  /\ cancelled w_end = cancelled w.
Proof.
  intros w w_end. subst w_end.
  destruct (reentrant_dispatch_borrows_context (New []) (RawWriter 0) 1
              Background w eq_refl) as (_ & _ & _ & _ & Hrun).
  rewrite Hrun. repeat split.
Defined.

(** C8.  The chain built from no handler is the void node, whose handler
    does nothing and whose [next] is the empty node [middleware{}]; invoking
    the void node any number of times returns and leaves the state as it is;
    a dispatch through an instance without handlers returns normally, no call
    reaches a response writer of the host, nothing is printed, and the only
    change to the response wrappers is the new one, which has recorded no
    status and no byte. *)
Theorem empty_chain_is_noop
  (base c : Context) (rw : ResponseWriter) (r : Request) (w : World) (k : nat) :
  build [] = voidMiddleware
  /\ camillo_middleware (NewWithContext base []) = voidMiddleware
  /\ middleware_next voidMiddleware = Some empty_middleware
  /\ middleware_handler empty_middleware = None
  /\ middleware_next empty_middleware = None
  /\ middleware_ServeHTTP voidMiddleware c rw r w = (Normal tt, w)
  /\ sequence (replicate k (middleware_ServeHTTP voidMiddleware c rw r)) w
     = (Normal tt, w)
  /\ exists w',
       Camillo_ServeHTTP (NewWithContext base []) rw r w = (Normal tt, w')
       /\ wire w' = wire w
       /\ logged w' = logged w
       /\ exists id, wrappers w' = <[id := mkWrapperState 0 0]> (wrappers w).
Proof.
  do 6 (split; [done|]). split.
  - induction k as [|k IH]; [done|]. cbn [replicate sequence].
    unfold bind. by rewrite voidMiddleware_ServeHTTP.
  - destruct (SingleSlot.Get (sharedContextStore w) r) as [c0|] eqn:Hget.
    + rewrite (Camillo_ServeHTTP_found _ _ _ c0) by done.
      cbn [NewWithContext camillo_middleware build].
      rewrite voidMiddleware_ServeHTTP.
      eexists. split; [done|]. split; [done|]. split; [done|].
      by eexists.
    + rewrite Camillo_ServeHTTP_fresh by done.
      cbn [NewWithContext camillo_middleware build].
      rewrite voidMiddleware_ServeHTTP. cbn [fst snd].
      eexists. split; [done|]. split; [done|]. split; [done|].
      by eexists.
Qed.

(** ** The adapter of plain handlers *)

(** C6.  The handler made by [Wrap] stores the context it receives under the
    request, so that [Get] yields it when the plain handler starts; the plain
    handler is called with the writer and the request only; when it returns,
    [next] is called with the context that [Get] then yields for the request,
    on the state the plain handler has left; when it panics, the panic
    propagates and [next] is not called. *)
Theorem wrap_round_trips_context
  (h : http_Handler) (c : Context) (rw : ResponseWriter) (r : Request)
  (next : NextFunc) (w : World) :
  let w1 := set_store (SingleSlot.Add r c) w in
  let out := http_ServeHTTP h rw r w1 in
  store_Add r c w = (Normal tt, w1)
  /\ SingleSlot.Get (sharedContextStore w1) r = c
  /\ Handler_ServeHTTP (Wrap h) c rw r next w
     = match fst out with
       | Normal _ =>
           next (SingleSlot.Get (sharedContextStore (snd out)) r) rw r (snd out)
       | Panic v => (Panic v, snd out)
       end.
Proof.
  intros w1 out. split; [done|]. split; [apply Get_Add|].
  cbn [Handler_ServeHTTP Wrap]. unfold bind, store_Add, modify, store_Get, gets.
  fold w1. fold out. by destruct out as [[[]|v] w2].
Qed.

Lemma Wrap_keeps_entry (h : http_Handler) c rw r (next : NextFunc) w :
  keeps_entry r (http_ServeHTTP h rw r) ->
  (forall c', keeps_entry r (next c' rw r)) ->
  SingleSlot.has_entry
    (sharedContextStore (snd (Handler_ServeHTTP (Wrap h) c rw r next w))) r.
Proof.
  intros Hh Hnext.
  cbn [Handler_ServeHTTP Wrap]. unfold bind, store_Add, modify, store_Get, gets.
  pose proof (Hh (set_store (SingleSlot.Add r c) w)) as Hh'.
  destruct (http_ServeHTTP h rw r _) as [[[]|v] w2]; cbn [snd] in *.
  - apply Hnext, Hh', has_entry_Add.
  - apply Hh', has_entry_Add.
Qed.

(** C10 (as amended).  When neither the plain handler nor [next] deletes the
    entry of the request, the store holds an entry for the request when the handler made
    by [Wrap] returns or panics: [Wrap] adds and never removes.  A dispatch
    through the chain of that handler that has found a context for the
    request ends with the entry in place; a dispatch that has found none
    reaches the end of the chain with the entry in place, and its deferred
    [Remove] then deletes it. *)
Theorem wrap_leaves_entry_to_dispatcher
  (h : http_Handler) (c base : Context) (rw : ResponseWriter) (r : Request)
  (next : NextFunc) (w : World) :
  (forall rw0, keeps_entry r (http_ServeHTTP h rw0 r)) ->
  (forall c', keeps_entry r (next c' rw r)) ->
  let n := NewWithContext base [Wrap h] in
  SingleSlot.has_entry
    (sharedContextStore (snd (Handler_ServeHTTP (Wrap h) c rw r next w))) r
  /\ (forall c0,
        SingleSlot.Get (sharedContextStore w) r = Some c0 ->
        SingleSlot.has_entry
          (sharedContextStore (snd (Camillo_ServeHTTP n rw r w))) r)
  /\ (SingleSlot.Get (sharedContextStore w) r = None ->
      let w_chain :=
        snd (middleware_ServeHTTP (camillo_middleware n)
               (Some (CancelCtx (next_object w) (base_context n)))
               (Wrapper (S (next_object w)) rw) r (fresh_head n r w)) in
      SingleSlot.has_entry (sharedContextStore w_chain) r
      /\ snd (Camillo_ServeHTTP n rw r w)
         = set_cancelled (fun s => {[next_object w]} ∪ s)
             (set_store (SingleSlot.Remove r) w_chain)
      /\ ~ SingleSlot.has_entry
             (sharedContextStore (snd (Camillo_ServeHTTP n rw r w))) r).
Proof.
  intros Hh Hnext n.
  assert (Hvoid : forall rw1 c', keeps_entry r
            (middleware_ServeHTTP voidMiddleware c' rw1 r)).
  { intros rw1 c' w0 Hw0. by rewrite voidMiddleware_ServeHTTP. }
  split; [by apply Wrap_keeps_entry|]. split.
  - intros c0 Hget. rewrite (Camillo_ServeHTTP_found _ _ _ c0) by done.
    apply Wrap_keeps_entry; [apply Hh|apply Hvoid].
  - intros Hget w_chain. rewrite Camillo_ServeHTTP_fresh by done.
    cbn [snd]. fold w_chain. split; [|split; [done|]].
    + apply Wrap_keeps_entry; [apply Hh|apply Hvoid].
    + apply no_entry_Remove.
Qed.

(** An instance of [wrap_leaves_entry_to_dispatcher]: the plain handler
    stores a derived context for the request, and [next] is the void node. *)
Lemma wrap_leaves_entry_to_dispatcher_witness :
  let h : http_Handler :=
    Some (fun _ r => store_Add r (Some (ValueCtx 7 Background "k" "v"))) in
  let n := NewWithContext None [Wrap h] in
  SingleSlot.Get
    (sharedContextStore
       (snd (Handler_ServeHTTP (Wrap h) (Some Background) (RawWriter 0) 1
               (middleware_ServeHTTP voidMiddleware) (initial no_dump)))) 1
  = Some (ValueCtx 7 Background "k" "v")
  /\ SingleSlot.has_entry
       (sharedContextStore
          (snd (Handler_ServeHTTP (Wrap h) (Some Background) (RawWriter 0) 1
                  (middleware_ServeHTTP voidMiddleware) (initial no_dump)))) 1
  /\ ~ SingleSlot.has_entry
         (sharedContextStore
            (snd (Camillo_ServeHTTP n (RawWriter 0) 1 (initial no_dump)))) 1.
Proof.
  intros h n.
  destruct (wrap_leaves_entry_to_dispatcher h (Some Background) None
              (RawWriter 0) 1 (middleware_ServeHTTP voidMiddleware)
              (initial no_dump))
    as (Hwrap & _ & Hfresh).
  - intros rw0 w0 _. apply has_entry_Add.
  - intros c' w0 Hw0. exact Hw0.
  - split; [reflexivity|]. split; [exact Hwrap|].
    exact (proj2 (proj2 (Hfresh eq_refl))).
Defined.

(** C10 (as stated) fails when the plain handler is an instance and the
    context is nil: the instance finds no context for the request, runs a
    dispatch of its own, and its deferred [Remove] deletes the entry that
    [Wrap] has added; the handler made by [Wrap] returns and the store holds
    no entry for the request. *)
Lemma wrap_of_instance_with_nil_context_drops_entry :
  let out :=
    Handler_ServeHTTP (Wrap (Camillo_handler (New []))) None (RawWriter 0) 1
      (middleware_ServeHTTP voidMiddleware) (initial no_dump) in
  fst out = Normal tt
  /\ SingleSlot.contexts (sharedContextStore (snd out)) = Some ∅
  /\ ~ SingleSlot.has_entry (sharedContextStore (snd out)) 1.
Proof.
  cbn zeta. split; [reflexivity|]. split; [reflexivity|].
  intros [c Hc]. vm_compute in Hc. discriminate.
Qed.

(** ** The recovery middleware *)

Lemma WriteHeader_effect rw code w :
  exists w',
    WriteHeader rw code w = (Normal tt, w')
    /\ wire w' = wire w ++ [(underlying rw, CallWriteHeader code)]
    /\ same_but_response w w'.
Proof.
  revert w. induction rw as [id|id inner IH]; intros w.
  - eexists. by repeat split.
  - destruct (IH w) as (w1 & Hrun & Hwire & Hst & Hc & Hl & Hd).
    cbn [WriteHeader underlying].
    unfold responseWriter_WriteHeader, bind, modify. rewrite Hrun.
    eexists. by repeat split.
Qed.

Lemma Write_effect rw data w :
  exists n w',
    Write rw data w = (Normal n, w')
    /\ wire w' = wire w ++ [(underlying rw, CallWrite data)]
    /\ same_but_response w w'.
Proof.
  revert w. induction rw as [id|id inner IH]; intros w.
  - do 2 eexists. by repeat split.
  - destruct (IH w) as (n & w1 & Hrun & Hwire & Hst & Hc & Hl & Hd).
    cbn [Write underlying].
    unfold responseWriter_Write, bind, modify, ret. rewrite Hrun.
    do 2 eexists. by repeat split.
Qed.

Lemma defer_recover_normal (deferred : any -> M unit) body w w1 :
  body w = (Normal tt, w1) ->
  defer_recover deferred body w = deferred None w1.
Proof. intros H. unfold defer_recover. by rewrite H. Qed.

Lemma defer_recover_panic (deferred : any -> M unit) body w v w1 :
  body w = (Panic v, w1) ->
  defer_recover deferred body w = deferred v w1.
Proof. intros H. unfold defer_recover. by rewrite H. Qed.

(** C7 (as amended).  For a [Recovery] whose logger is not nil and whose
    [StackSize] is a length that [make] accepts (not negative and not above
    [maxAlloc]): when the downstream call panics with a
    value that is not nil, [ServeHTTP] returns normally; the writer receives
    [WriteHeader(500)], followed by one [Write] of the message when
    [PrintStack] is set and by nothing else when it is not; the logger
    prints the message, which is made of the panic value and of the trace
    cut at [StackSize]; the store and the cancelled contexts are left alone.
    When the downstream call returns, or when [recover] yields nil,
    [ServeHTTP] returns on the state the downstream call has left. *)
Theorem recovery_absorbs_panic
  (rec : Recovery) (l : logger) (c : Context) (rw : ResponseWriter)
  (r : Request) (next : NextFunc) (w : World) :
  Logger rec = Some l ->
  (0 <= StackSize rec)%Z ->
  (StackSize rec <= maxAlloc)%Z ->
  let out := next c rw r w in
  match fst out with
  | Normal _ | Panic None =>
      Recovery_ServeHTTP rec c rw r next w = (Normal tt, snd out)
  | Panic (Some e) =>
      let stack := substring 0 (Z.to_nat (StackSize rec))
                     (stack_dump (snd out) (StackAll rec)) in
      let message := format_panic e stack in
      exists w',
        Recovery_ServeHTTP rec c rw r next w = (Normal tt, w')
        /\ wire w'
           = wire (snd out)
             ++ (underlying rw, CallWriteHeader 500)
                :: (if PrintStack rec
                    then [(underlying rw, CallWrite message)]
                    else [])
        /\ logged w'
           = logged (snd out)
             ++ [mkLogLine (logger_out l) (logger_prefix l) message]
        /\ sharedContextStore w' = sharedContextStore (snd out)
        /\ cancelled w' = cancelled (snd out)
  end.
Proof.
  intros Hlog Hsize Hmax out. unfold Recovery_ServeHTTP.
  destruct out as [[[]|[e|]] w1] eqn:Hout; cbn [fst snd].
  - by rewrite (defer_recover_normal _ _ _ _ Hout).
  - rewrite (defer_recover_panic _ _ _ _ _ Hout).
    unfold Recovery_recovered, StatusInternalServerError.
    destruct (WriteHeader_effect rw 500 w1)
      as (w2 & Hrun2 & Hwire2 & Hst2 & Hc2 & Hl2 & Hd2).
    unfold bind at 1. rewrite Hrun2.
    unfold bind at 1, capture_stack.
    rewrite (proj2 (Z.ltb_ge _ _) Hsize), (proj2 (Z.ltb_ge _ _) Hmax).
    cbn [orb].
    unfold gets. rewrite Hlog. unfold bind at 1, Printf, modify.
    rewrite Hd2.
    set (message := format_panic e _).
    destruct (PrintStack rec).
    + destruct (Write_effect rw message
                  (set_logged (fun ls => ls ++ [mkLogLine (logger_out l)
                                                 (logger_prefix l) message]) w2))
        as (n & w3 & Hrun3 & Hwire3 & Hst3 & Hc3 & Hl3 & Hd3).
      unfold Fprintf, bind. rewrite Hrun3. exists w3.
      split; [done|]. rewrite Hwire3, Hl3, Hst3, Hc3. cbn.
      rewrite Hwire2, Hl2, Hst2, Hc2, <- app_assoc. done.
    + eexists. split; [done|]. cbn. by rewrite Hwire2, Hl2, Hst2, Hc2.
  - by rewrite (defer_recover_panic _ _ _ _ _ Hout).
Qed.

(** An instance of [recovery_absorbs_panic]: the recovery middleware of
    [NewRecovery] around a handler that panics with "boom", on a wrapped
    writer. *)
Lemma recovery_absorbs_panic_witness :
  let w := set_wrappers (insert 5 (mkWrapperState 0 0))
             (initial (fun _ => "goroutine 1 [running]:"%string)) in
  let out := Recovery_ServeHTTP NewRecovery (Some Background)
               (Wrapper 5 (RawWriter 0)) 1
               (panicking (Some (VString "boom"))) w in
  fst out = Normal tt
  /\ wire (snd out)
     = [(0, CallWriteHeader 500);
        (0, CallWrite (format_panic (VString "boom") "goroutine 1 [running]:"))]
  /\ map line_message (logged (snd out))
     = [format_panic (VString "boom") "goroutine 1 [running]:"].
Proof.
  intros w out.
  destruct (recovery_absorbs_panic NewRecovery (mkLogger os_Stdout "[camillo] ")
              (Some Background) (Wrapper 5 (RawWriter 0)) 1
              (panicking (Some (VString "boom"))) w eq_refl)
    as (w' & Hrun & Hwire & Hlogged & _).
  - vm_compute. discriminate.
  - vm_compute. discriminate.
  - subst out. rewrite Hrun. cbn [fst snd]. rewrite Hwire, Hlogged.
    repeat split.
Defined.

(** C7 (as stated) fails on four inputs.  With a nil logger, the deferred
    function panics after [WriteHeader(500)]: a panic leaves [ServeHTTP] and
    nothing is logged.  With a negative [StackSize], and with one above
    [maxAlloc], [make] panics there too.  With [panic(nil)] downstream,
    where [recover] yields nil, the panic is absorbed and neither a status
    nor a log line is written. *)
Lemma recovery_misconfigured_panics :
  Recovery_ServeHTTP (mkRecovery None true false 8192) (Some Background)
    (RawWriter 0) 1 (panicking (Some (VString "boom"))) (initial no_dump)
  = (Panic (Some nil_dereference),
     set_wire (fun _ => [(0, CallWriteHeader 500)]) (initial no_dump))
  /\ Recovery_ServeHTTP
       (mkRecovery (Some (mkLogger os_Stdout "[camillo] ")) true false (-1))
       (Some Background) (RawWriter 0) 1 (panicking (Some (VString "boom")))
       (initial no_dump)
     = (Panic (Some makeslice_error),
        set_wire (fun _ => [(0, CallWriteHeader 500)]) (initial no_dump))
  /\ Recovery_ServeHTTP
       (mkRecovery (Some (mkLogger os_Stdout "[camillo] ")) true false (2 ^ 62))
       (Some Background) (RawWriter 0) 1 (panicking (Some (VString "boom")))
       (initial no_dump)
     = (Panic (Some makeslice_error),
        set_wire (fun _ => [(0, CallWriteHeader 500)]) (initial no_dump))
  /\ Recovery_ServeHTTP NewRecovery (Some Background) (RawWriter 0) 1
       (panicking None) (initial no_dump)
     = (Normal tt, initial no_dump).
Proof. repeat split. Qed.

(** ** A scenario from end to end *)

(** The chain of the recovery middleware and of a handler that panics: the
    dispatch returns, the host writer receives the status 500 and the
    message, the entry of the request is gone and its context cancelled. *)
Example recovery_in_chain :
  let n := New [Some (Recovery_ServeHTTP NewRecovery);
                Some (fun _ _ _ _ => panic (Some (VError "broken")))] in
  let out := Camillo_ServeHTTP n (RawWriter 0) 1 (initial no_dump) in
  fst out = Normal tt
  /\ wire (snd out)
     = [(0, CallWriteHeader 500);
        (0, CallWrite (format_panic (VError "broken") ""))]
  /\ wrappers (snd out) !! 1
     = Some (mkWrapperState 500
               (Z.of_nat (String.length (format_panic (VError "broken") ""))))
  /\ SingleSlot.Get (sharedContextStore (snd out)) 1 = None
  /\ done (snd out) (CancelCtx 0 Background) = true.
Proof. vm_compute. repeat split. Qed.

(** * Further properties *)

(** ** The context store, one context per request *)

Lemma Get_apply_op_untouched s req o :
  slot_touches req o = false ->
  SingleSlot.Get (SingleSlot.apply_op s o) req = SingleSlot.Get s req.
Proof.
  destruct o as [r c|r|r]; simpl; intros Ho; [| |done];
    apply bool_decide_eq_false in Ho.
  - by apply Get_Add_ne.
  - by apply Get_Remove_ne.
Qed.

Lemma Get_run_untouched ops s req :
  Forall (fun o => slot_touches req o = false) ops ->
  SingleSlot.Get (SingleSlot.run ops s) req = SingleSlot.Get s req.
Proof.
  unfold SingleSlot.run. intros Hops. revert s.
  induction Hops as [|o ops Ho _ IH]; intros s; simpl; [done|].
  rewrite IH. by apply Get_apply_op_untouched.
Qed.

(** X1.  In the single-slot store, the calls made for other requests do not
    change what [Get] returns for a request: a sequence of calls none of
    which adds or removes the request leaves its context as it was. *)
Theorem slot_isolated
  (req : Request) (ops : list SingleSlot.op) (s : SingleSlot.contextStore) :
  Forall (fun o => slot_touches req o = false) ops ->
  SingleSlot.Get (SingleSlot.run ops s) req = SingleSlot.Get s req.
Proof. apply Get_run_untouched. Qed.

(** An instance of [slot_isolated]: request 1 keeps its context while
    request 2 is added and removed. *)
Lemma slot_isolated_witness :
  SingleSlot.Get
    (SingleSlot.run [SingleSlot.OpAdd 2 None; SingleSlot.OpRemove 2]
       (SingleSlot.Add 1 (Some Background) SingleSlot.zero)) 1
  = Some Background.
Proof.
  rewrite (slot_isolated 1 [SingleSlot.OpAdd 2 None; SingleSlot.OpRemove 2]).
  - reflexivity.
  - repeat constructor.
Defined.

Lemma run_app_slot ops1 ops2 s :
  SingleSlot.run (ops1 ++ ops2) s = SingleSlot.run ops2 (SingleSlot.run ops1 s).
Proof. unfold SingleSlot.run. apply fold_left_app. Qed.

(** X2.  In the single-slot store the last write wins, whatever came before:
    after any calls, [Get] of a request returns the context of the last
    [Add] for it when no later call writes its slot, and nil when the last
    such call is a [Remove]; contexts added earlier are lost. *)
Theorem slot_last_write_wins
  (req : Request) (c : Context) (before after : list SingleSlot.op)
  (s : SingleSlot.contextStore) :
  Forall (fun o => slot_touches req o = false) after ->
  SingleSlot.Get
    (SingleSlot.run (before ++ SingleSlot.OpAdd req c :: after) s) req = c
  /\ SingleSlot.Get
       (SingleSlot.run (before ++ SingleSlot.OpRemove req :: after) s) req
     = None.
Proof.
  intros Hafter. split.
  - rewrite run_app_slot. change (SingleSlot.OpAdd req c :: after)
      with ([SingleSlot.OpAdd req c] ++ after).
    rewrite run_app_slot, Get_run_untouched by done. apply Get_Add.
  - rewrite run_app_slot. change (SingleSlot.OpRemove req :: after)
      with ([SingleSlot.OpRemove req] ++ after).
    rewrite run_app_slot, Get_run_untouched by done. apply Get_Remove.
Qed.

(** An instance of [slot_last_write_wins]: two nested [Add] for request 1,
    then one [Remove]: the outer context is not restored. *)
Lemma slot_last_write_wins_witness :
  SingleSlot.Get
    (SingleSlot.run
       ([SingleSlot.OpAdd 1 (Some Background);
         SingleSlot.OpAdd 1 (Some (CancelCtx 0 Background))]
        ++ SingleSlot.OpRemove 1 :: [SingleSlot.OpGet 1]) SingleSlot.zero) 1
  = None.
Proof.
  refine (proj2 (slot_last_write_wins 1 None
                   [SingleSlot.OpAdd 1 (Some Background);
                    SingleSlot.OpAdd 1 (Some (CancelCtx 0 Background))]
                   [SingleSlot.OpGet 1] SingleSlot.zero _)).
  repeat constructor.
Defined.

(** ** The context store, a stack of contexts per request *)

Lemma stacked_apply_op_untouched s req o :
  stack_touches req o = false ->
  Stacked.stacked (Stacked.apply_op s o) req = Stacked.stacked s req.
Proof.
  destruct o as [r c|r c|r]; simpl; intros Ho; [| |done];
    apply bool_decide_eq_false in Ho.
  - by apply stacked_Push_ne.
  - by apply stacked_Pop_ne.
Qed.

(** X3.  In the stack store, the calls made for other requests change
    neither the stack of a request nor what [Get] returns for it, whether
    they return or panic. *)
Theorem stack_isolated
  (req : Request) (ops : list Stacked.op) (s : Stacked.contextStore) :
  Forall (fun o => stack_touches req o = false) ops ->
  Stacked.stacked (Stacked.run ops s) req = Stacked.stacked s req
  /\ Stacked.Get (Stacked.run ops s) req = Stacked.Get s req.
Proof.
  intros Hops.
  assert (H : Stacked.stacked (Stacked.run ops s) req = Stacked.stacked s req).
  { unfold Stacked.run. revert s.
    induction Hops as [|o ops Ho _ IH]; intros s; simpl; [done|].
    rewrite IH. by apply stacked_apply_op_untouched. }
  split; [done|]. by rewrite !Get_stacked, H.
Qed.

(** An instance of [stack_isolated]: request 1 keeps its stack while
    request 2 is pushed, popped, and popped once too often. *)
Lemma stack_isolated_witness :
  Stacked.Get
    (Stacked.run [Stacked.OpPush 2 None; Stacked.OpPop 2 None;
                  Stacked.OpPop 2 None]
       (Stacked.Push 1 (Some Background) Stacked.zero)) 1
  = Some Background.
Proof.
  rewrite (proj2 (stack_isolated 1
                    [Stacked.OpPush 2 None; Stacked.OpPop 2 None;
                     Stacked.OpPop 2 None]
                    (Stacked.Push 1 (Some Background) Stacked.zero)
                    ltac:(repeat constructor))).
  reflexivity.
Defined.

Lemma Pop_top s m req l c :
  Stacked.contexts s = Some m ->
  Stacked.stacked s req = l ++ [c] ->
  exists s',
    Stacked.Pop req c s = (Normal tt, s')
    /\ Stacked.stacked s' req = l
    /\ is_Some (Stacked.contexts s').
Proof.
  intros Hm Hst. unfold Stacked.stacked in Hst. rewrite Hm in Hst.
  unfold Stacked.Pop. rewrite Hm, Hst, last_snoc.
  rewrite decide_True by done. rewrite take_snoc_length.
  destruct l as [|top rest].
  - eexists. split; [done|]. split; [|by eexists].
    unfold Stacked.stacked, Stacked.stack_at; simpl.
    by rewrite lookup_delete_eq.
  - eexists. split; [done|]. split; [|by eexists].
    unfold Stacked.stacked, Stacked.stack_at; simpl.
    by rewrite lookup_insert_eq.
Qed.

Lemma pop_all_app req cs1 cs2 s s1 :
  pop_all req cs1 s = (Normal tt, s1) ->
  pop_all req (cs1 ++ cs2) s = pop_all req cs2 s1.
Proof.
  revert s. induction cs1 as [|c cs1 IH]; intros s; simpl.
  - by intros [= ->].
  - destruct (Stacked.Pop req c s) as [[[]|v] s']; [apply IH|done].
Qed.

Lemma push_pop_all req cs s :
  exists s',
    pop_all req (rev cs) (push_all req cs s) = (Normal tt, s')
    /\ (forall r, Stacked.stacked s' r = Stacked.stacked s r)
    /\ (is_Some (Stacked.contexts s) -> is_Some (Stacked.contexts s')).
Proof.
  revert s. induction cs as [|c cs IH]; intros s.
  - exists s. by repeat split.
  - cbn [push_all fold_left rev]. fold (push_all req cs (Stacked.Push req c s)).
    destruct (IH (Stacked.Push req c s)) as (s1 & Hrun & Hst & Halloc).
    destruct Halloc as [m1 Hm1]; [by eexists|].
    destruct (Pop_top s1 m1 req (Stacked.stacked s req) c Hm1) as (s2 & HPop & Hst2 & Hm2).
    { by rewrite Hst, stacked_Push. }
    exists s2. split; [|split; [|done]].
    + rewrite (pop_all_app _ _ _ _ _ Hrun). simpl. by rewrite HPop.
    + intros r. destruct (decide (r = req)) as [->|Hne]; [done|].
      pose proof (stacked_Pop_ne s1 req r c (not_eq_sym Hne)) as Hp.
      rewrite HPop in Hp. simpl in Hp.
      by rewrite Hp, Hst, stacked_Push_ne.
Qed.

(** X4.  In the stack store, pushes and pops nest: after the contexts of a
    list have been pushed for a request, popping them in the reverse order
    never panics, and leaves every stack of the store, hence every result of
    [Get], as it was before the pushes. *)
Theorem stack_balanced_run_restores
  (req : Request) (cs : list (option context)) (s : Stacked.contextStore) :
  exists s',
    pop_all req (rev cs) (push_all req cs s) = (Normal tt, s')
    /\ (forall r, Stacked.stacked s' r = Stacked.stacked s r)
    /\ (forall r, Stacked.Get s' r = Stacked.Get s r).
Proof.
  destruct (push_pop_all req cs s) as (s' & Hrun & Hst & _).
  exists s'. split; [done|]. split; [done|].
  intros r. by rewrite !Get_stacked, Hst.
Qed.

Lemma no_empty_stack_Push req c s :
  no_empty_stack s -> no_empty_stack (Stacked.Push req c s).
Proof.
  unfold no_empty_stack, Stacked.Push; simpl. intros Hs r.
  destruct (decide (req = r)) as [->|Hne].
  - rewrite lookup_insert_eq. intros [= H]. by destruct (Stacked.stack_at _ r).
  - rewrite lookup_insert_ne by done.
    destruct (Stacked.contexts s) as [m|]; [apply Hs|by rewrite lookup_empty].
Qed.

Lemma no_empty_stack_Pop req c s :
  no_empty_stack s -> no_empty_stack (snd (Stacked.Pop req c s)).
Proof.
  unfold Stacked.Pop. intros Hs.
  destruct (Stacked.contexts s) as [m|] eqn:Hm; [|done].
  destruct (last (Stacked.stack_at m req)) as [top|]; [|done].
  destruct (decide (top = c)); [|done].
  unfold no_empty_stack in Hs. rewrite Hm in Hs.
  destruct (take _ _) as [|x l] eqn:Ht; simpl; intros r.
  - destruct (decide (req = r)) as [->|Hne].
    + by rewrite lookup_delete_eq.
    + rewrite lookup_delete_ne by done. apply Hs.
  - destruct (decide (req = r)) as [->|Hne].
    + by rewrite lookup_insert_eq.
    + rewrite lookup_insert_ne by done. apply Hs.
Qed.

(** X5.  The stack store never keeps an empty stack: whatever calls have
    been made since the program started, no request is mapped to an empty
    stack, because [Pop] deletes the entry of a request together with its
    last context. *)
Theorem stack_store_keeps_no_empty_stack (ops : list Stacked.op) :
  no_empty_stack (Stacked.run ops Stacked.zero).
Proof.
  unfold Stacked.run.
  assert (H : forall s, no_empty_stack s ->
                        no_empty_stack (fold_left Stacked.apply_op ops s)).
  { induction ops as [|o ops IH]; intros s Hs; simpl; [done|].
    apply IH. destruct o as [r c|r c|r]; simpl; [|by apply no_empty_stack_Pop|done].
    by apply no_empty_stack_Push. }
  by apply H.
Qed.

(** X6.  On a store whose map is allocated and holds no empty stack for the
    request, a [Push] followed by the matching [Pop] gives back the very
    same store. *)
Theorem stack_push_pop_identity
  (req : Request) (c : Context) (m : gmap nat (list (option context))) :
  m !! req <> Some [] ->
  Stacked.Pop req c (Stacked.Push req c (Stacked.mkStore (Some m)))
  = (Normal tt, Stacked.mkStore (Some m)).
Proof.
  intros Hne. unfold Stacked.Pop, Stacked.Push; simpl.
  assert (Hst : Stacked.stack_at (<[req := Stacked.stack_at m req ++ [c]]> m) req
                = Stacked.stack_at m req ++ [c]).
  { unfold Stacked.stack_at at 1. by rewrite lookup_insert_eq. }
  rewrite Hst, last_snoc. rewrite decide_True by done.
  rewrite take_snoc_length. clear Hst.
  unfold Stacked.stack_at.
  destruct (m !! req) as [[|top rest]|] eqn:Hm; [done| |].
  - rewrite insert_insert_eq, insert_id; done.
  - rewrite delete_insert_eq, delete_id; done.
Qed.

(** An instance of [stack_push_pop_identity]: a push and a pop above the
    background context. *)
Lemma stack_push_pop_identity_witness :
  Stacked.Pop 1 None
    (Stacked.Push 1 None (Stacked.mkStore (Some {[1 := [Some Background]]})))
  = (Normal tt, Stacked.mkStore (Some {[1 := [Some Background]]})).
Proof.
  apply (stack_push_pop_identity 1 None {[1 := [Some Background]]}).
  vm_compute. discriminate.
Defined.

(** ** The chain builder *)

(** X7.  [build] keeps the handlers and their order: the nodes of the chain
    hold the handlers of the list, first to last, then the void handler,
    then the empty node (whose handler is nil); a chain has two nodes more
    than the list has handlers. *)
Theorem build_keeps_handlers (handlers : list Handler) :
  chain_handlers (build handlers) = handlers ++ [Some void_handler; None]
  /\ length (chain_handlers (build handlers)) = length handlers + 2.
Proof.
  assert (H : chain_handlers (build handlers)
              = handlers ++ [Some void_handler; None]).
  { induction handlers as [|h tl IH]; [done|].
    rewrite build_cons. cbn [chain_handlers]. by rewrite IH. }
  split; [done|]. rewrite H, length_app. simpl. lia.
Qed.

Lemma chain_onion_prefix (layers : list layer) (rest : list Handler) c rw r w :
  Forall (fun l => calls_next_once (layer_handler l) (layer_before l)
                                   (layer_after l)) layers ->
  middleware_ServeHTTP (build (map layer_handler layers ++ rest)) c rw r w
  = (sequence (map (fun l => layer_before l c rw r) layers) ;;
     middleware_ServeHTTP (build rest) c rw r ;;
     sequence (map (fun l => layer_after l c rw r) (rev layers))) w.
Proof.
  intros Hls. revert w.
  induction Hls as [|l ls Hl _ IH]; intros w.
  - cbn [map app rev sequence]. rewrite bind_ret_l. by rewrite bind_ret_r.
  - cbn [map app]. rewrite build_cons. cbn [middleware_ServeHTTP].
    rewrite Hl. cbn [rev sequence]. rewrite map_app. cbn [map].
    rewrite bind_assoc. apply bind_ext; [done|]. intros _ w1.
    etransitivity.
    { apply bind_ext; [apply IH|]. intros; reflexivity. }
    rewrite bind_assoc. apply bind_ext; [done|]. intros _ w2.
    rewrite bind_assoc. apply bind_ext; [done|]. intros _ w3.
    rewrite sequence_app. apply bind_ext; [done|]. intros _ w4.
    cbn [sequence]. by rewrite bind_ret_r.
Qed.

(** X8.  Chains compose: a dispatch through the chain of the handlers of
    some layers (handlers that run a "before" part, call [next] once and run
    an "after" part) followed by any other handlers runs the "before" parts
    in order, then the chain built from the other handlers alone, then the
    "after" parts in the reverse order. *)
Theorem chain_of_layers_then_rest
  (layers : list layer) (rest : list Handler) (c : Context)
  (rw : ResponseWriter) (r : Request) (w : World) :
  Forall (fun l => calls_next_once (layer_handler l) (layer_before l)
                                   (layer_after l)) layers ->
  middleware_ServeHTTP (build (map layer_handler layers ++ rest)) c rw r w
  = (sequence (map (fun l => layer_before l c rw r) layers) ;;
     middleware_ServeHTTP (build rest) c rw r ;;
     sequence (map (fun l => layer_after l c rw r) (rev layers))) w.
Proof. apply chain_onion_prefix. Qed.

(** An instance of [chain_of_layers_then_rest]: two printing layers around
    the recovery middleware and a handler that panics. *)
Lemma chain_of_layers_then_rest_witness :
  let out :=
    middleware_ServeHTTP
      (build (map layer_handler [announce_layer "a"; announce_layer "b"]
              ++ [Recovery_handler NewRecovery;
                  Some (fun _ _ _ _ => panic (Some (VString "boom")))]))
      (Some Background) (RawWriter 0) 1 (initial no_dump) in
  fst out = Normal tt
  /\ map line_message (logged (snd out))
     = ["before a"; "before b"; format_panic (VString "boom") "";
        "after b"; "after a"]%string.
Proof.
  intros out. subst out.
  rewrite (chain_of_layers_then_rest [announce_layer "a"; announce_layer "b"]).
  - vm_compute. repeat split.
  - repeat constructor.
Defined.

(** X9.  A handler that does not call [next] ends the chain: when it comes
    after some layers, a dispatch runs the "before" parts of the layers, the
    handler, and the "after" parts in the reverse order; the handlers that
    follow it in the list never run, whatever they are. *)
Theorem chain_stops_at_handler_without_next
  (layers : list layer) (h : Handler) (body : Part) (after : list Handler)
  (c : Context) (rw : ResponseWriter) (r : Request) (w : World) :
  Forall (fun l => calls_next_once (layer_handler l) (layer_before l)
                                   (layer_after l)) layers ->
  ignores_next h body ->
  middleware_ServeHTTP (build (map layer_handler layers ++ h :: after)) c rw r w
  = (sequence (map (fun l => layer_before l c rw r) layers) ;;
     body c rw r ;;
     sequence (map (fun l => layer_after l c rw r) (rev layers))) w.
Proof.
  intros Hls Hh. rewrite chain_onion_prefix by done.
  apply bind_ext; [done|]. intros _ w1.
  apply bind_ext; [|done].
  rewrite build_cons. cbn [middleware_ServeHTTP]. apply Hh.
Qed.

(** An instance of [chain_stops_at_handler_without_next]: a handler that
    writes the response and returns, before a handler that would panic. *)
Lemma chain_stops_at_handler_without_next_witness :
  let out :=
    middleware_ServeHTTP
      (build (map layer_handler [announce_layer "a"]
              ++ Some (fun _ rw _ _ => Fprintf rw "hi")
              :: [Some (fun _ _ _ _ => panic (Some (VString "boom")))]))
      (Some Background) (RawWriter 0) 1 (initial no_dump) in
  fst out = Normal tt
  /\ wire (snd out) = [(0, CallWrite "hi")]
  /\ map line_message (logged (snd out)) = ["before a"; "after a"]%string.
Proof.
  intros out. subst out.
  rewrite (chain_stops_at_handler_without_next [announce_layer "a"]
             (Some (fun _ rw _ _ => Fprintf rw "hi"))
             (fun _ rw _ => Fprintf rw "hi")).
  - vm_compute. repeat split.
  - repeat constructor.
  - intros c rw r next w. reflexivity.
Defined.

(** ** The instance *)

(** X10.  Adding handlers one by one with [Use] gives the instance that
    [NewWithContext] builds from the whole list at once: the handlers are
    kept in the order in which they were added, and the chain is always the
    one built from them. *)
Theorem use_one_by_one
  (c : Context) (first added : list Handler) :
  let n := fold_left (fun n h => Use h n) added (NewWithContext c first) in
  n = NewWithContext c (first ++ added)
  /\ Handlers n = first ++ added
  /\ camillo_middleware n = build (Handlers n).
Proof.
  cbn zeta.
  assert (H : fold_left (fun n h => Use h n) added (NewWithContext c first)
              = NewWithContext c (first ++ added)).
  { revert first. induction added as [|h added IH]; intros first; simpl.
    - by rewrite app_nil_r.
    - unfold Use at 2. cbn [NewWithContext camillo_handlers camillo_ctx].
      fold (NewWithContext c (first ++ [h])).
      rewrite IH. by rewrite <- app_assoc. }
  rewrite H. by repeat split.
Qed.

(** ** The dispatcher *)

(** X11.  A dispatch does not disturb the other requests: when the chain
    leaves the context of another request as it is, so does the dispatch,
    whether it has found a context or created one, and whether the chain
    returns or panics. *)
Theorem dispatch_leaves_other_requests
  (n : Camillo) (rw : ResponseWriter) (r r' : Request) (w : World) :
  r <> r' ->
  (forall c rw0 w0,
     SingleSlot.Get
       (sharedContextStore
          (snd (middleware_ServeHTTP (camillo_middleware n) c rw0 r w0))) r'
     = SingleSlot.Get (sharedContextStore w0) r') ->
  SingleSlot.Get (sharedContextStore (snd (Camillo_ServeHTTP n rw r w))) r'
  = SingleSlot.Get (sharedContextStore w) r'.
Proof.
  intros Hne Hchain.
  destruct (SingleSlot.Get (sharedContextStore w) r) as [c0|] eqn:Hget.
  - rewrite (Camillo_ServeHTTP_found _ _ _ c0) by done. by rewrite Hchain.
  - rewrite Camillo_ServeHTTP_fresh by done. cbn [snd sharedContextStore set_cancelled set_store].
    rewrite Get_Remove_ne by done. rewrite Hchain.
    change (sharedContextStore (fresh_head n r w))
      with (SingleSlot.Add r (Some (CancelCtx (next_object w) (base_context n)))
              (sharedContextStore w)).
    by rewrite Get_Add_ne.
Qed.

(** An instance of [dispatch_leaves_other_requests]: a dispatch of request 1
    without handlers while request 2 is in flight. *)
Lemma dispatch_leaves_other_requests_witness :
  SingleSlot.Get
    (sharedContextStore
       (snd (Camillo_ServeHTTP (New []) (RawWriter 0) 1
               (set_store (SingleSlot.Add 2 (Some Background))
                  (initial no_dump))))) 2
  = Some Background.
Proof.
  rewrite (dispatch_leaves_other_requests (New []) (RawWriter 0) 1 2).
  - reflexivity.
  - discriminate.
  - intros c rw0 w0. reflexivity.
Defined.

(** X12.  An instance mounted in another one with [Wrap] runs its chain with
    the context that the outer dispatch has created for the request, and
    owns nothing: the outcome of the outer dispatch is the outcome of the
    inner chain, nothing is cancelled when the inner chain starts, and the
    entry is removed and the context cancelled only after the inner chain
    has ended, by the outer dispatch. *)
Theorem mounted_instance_shares_context
  (base : Context) (inner : Camillo) (rw : ResponseWriter) (r : Request)
  (w : World) :
  SingleSlot.Get (sharedContextStore w) r = None ->
  let outer := NewWithContext base [Wrap (Camillo_handler inner)] in
  let id := next_object w in
  let c := CancelCtx id (base_context outer) in
  let w_inner :=
    found_head (set_store (SingleSlot.Add r (Some c)) (fresh_head outer r w)) in
  let out :=
    middleware_ServeHTTP (camillo_middleware inner) (Some c)
      (Wrapper (S (S id)) (Wrapper (S id) rw)) r w_inner in
  SingleSlot.Get (sharedContextStore w_inner) r = Some c
  /\ cancelled w_inner = cancelled w
  /\ Camillo_ServeHTTP outer rw r w
     = (fst out,
        set_cancelled (fun s => {[id]} ∪ s)
          (set_store (SingleSlot.Remove r) (snd out))).
Proof.
  intros Hget outer id c w_inner out.
  split; [apply Get_Add|]. split; [done|].
  rewrite Camillo_ServeHTTP_fresh by done.
  fold id. fold c. cbn zeta.
  assert (Hchain :
    middleware_ServeHTTP (camillo_middleware outer) (Some c)
      (Wrapper (S id) rw) r (fresh_head outer r w) = out).
  { cbn [outer NewWithContext camillo_middleware build middleware_ServeHTTP
         Handler_ServeHTTP Wrap].
    unfold bind at 1, store_Add, modify.
    unfold bind at 1. cbn [http_ServeHTTP Camillo_handler].
    rewrite (Camillo_ServeHTTP_found inner _ r c) by apply Get_Add.
    change (middleware_ServeHTTP (camillo_middleware inner) _ _ r _) with out.
    destruct out as [[[]|v] w2]; done. }
  by rewrite Hchain.
Qed.

(** An instance of [mounted_instance_shares_context]: the inner instance
    has one handler, which panics; the panic leaves the outer dispatch, the
    entry is gone and the context is cancelled. *)
Lemma mounted_instance_shares_context_witness :
  let inner := New [Some (fun _ _ _ _ => panic (Some (VString "boom")))] in
  let out := Camillo_ServeHTTP (NewWithContext None [Wrap (Camillo_handler inner)])
               (RawWriter 0) 1 (initial no_dump) in
  fst out = Panic (Some (VString "boom"))
  /\ SingleSlot.Get (sharedContextStore (snd out)) 1 = None
  /\ done (snd out) (CancelCtx 0 Background) = true.
Proof.
  intros inner out. subst out.
  destruct (mounted_instance_shares_context None inner (RawWriter 0) 1
              (initial no_dump) eq_refl) as (_ & _ & Hrun).
  rewrite Hrun. vm_compute. repeat split.
Defined.

(** ** The adapter of plain handlers *)

(** X13.  A plain handler that leaves the context of the request in the
    store alone does not change the context of the chain: the handler that
    [Wrap] makes of it stores the context, runs the plain handler and calls
    [next] once with the context it has received, so it is a layer with no
    "after" part. *)
Theorem wrap_of_neutral_handler_is_layer (h : http_Handler) :
  (forall rw r w,
     SingleSlot.Get (sharedContextStore (snd (http_ServeHTTP h rw r w))) r
     = SingleSlot.Get (sharedContextStore w) r) ->
  calls_next_once (Wrap h)
    (fun c rw r => store_Add r c ;; http_ServeHTTP h rw r)
    (fun _ _ _ => ret tt).
Proof.
  intros Hh c rw r next w.
  cbn [Handler_ServeHTTP Wrap]. unfold bind, store_Add, modify, store_Get, gets.
  pose proof (Hh rw r (set_store (SingleSlot.Add r c) w)) as Hget.
  destruct (http_ServeHTTP h rw r _) as [[[]|v] w2]; [|done].
  cbn [snd] in Hget. rewrite Hget.
  change (sharedContextStore (set_store (SingleSlot.Add r c) w))
    with (SingleSlot.Add r c (sharedContextStore w)).
  rewrite Get_Add. unfold ret.
  by destruct (next c rw r w2) as [[[]|v] w3].
Qed.

(** An instance of [wrap_of_neutral_handler_is_layer]: a plain handler that
    prints a line. *)
Lemma wrap_of_neutral_handler_is_layer_witness :
  calls_next_once (Wrap (Some (fun _ _ => Printf (Some stdout_logger) "hi")))
    (fun c rw r =>
       store_Add r c ;;
       http_ServeHTTP (Some (fun _ _ => Printf (Some stdout_logger) "hi")) rw r)
    (fun _ _ _ => ret tt).
Proof.
  apply wrap_of_neutral_handler_is_layer.
  intros rw r w. reflexivity.
Defined.

(** ** The recovery middleware *)

Lemma Recovery_returns rec l c rw r (next : NextFunc) w :
  Logger rec = Some l ->
  (0 <= StackSize rec)%Z ->
  (StackSize rec <= maxAlloc)%Z ->
  fst (Recovery_ServeHTTP rec c rw r next w) = Normal tt.
Proof.
  intros Hlog Hsize Hmax. unfold Recovery_ServeHTTP, defer_recover.
  destruct (next c rw r w) as [[[]|[e|]] w1]; [done| |done].
  unfold Recovery_recovered.
  destruct (WriteHeader_effect rw StatusInternalServerError w1)
    as (w2 & Hrun2 & _).
  unfold bind at 1. rewrite Hrun2.
  unfold bind at 1, capture_stack.
  rewrite (proj2 (Z.ltb_ge _ _) Hsize), (proj2 (Z.ltb_ge _ _) Hmax).
  cbn [orb].
  unfold gets. rewrite Hlog. unfold bind at 1, Printf, modify.
  destruct (PrintStack rec); [|done].
  match goal with |- context [Fprintf rw ?msg ?w0] =>
    destruct (Write_effect rw msg w0) as (n & w3 & Hrun3 & _)
  end.
  unfold Fprintf, bind. by rewrite Hrun3.
Qed.

(** X14.  An instance whose first handler is a recovery middleware with a
    logger and a [StackSize] that [make] accepts (not negative and not above
    [maxAlloc]) never lets a panic out:
    whatever the other handlers do, in whatever state and for whatever
    request, the dispatch returns normally. *)
Theorem dispatch_behind_recovery_returns
  (rec : Recovery) (l : logger) (base : Context) (others : list Handler)
  (rw : ResponseWriter) (r : Request) (w : World) :
  Logger rec = Some l ->
  (0 <= StackSize rec)%Z ->
  (StackSize rec <= maxAlloc)%Z ->
  fst (Camillo_ServeHTTP (NewWithContext base (Recovery_handler rec :: others))
         rw r w)
  = Normal tt.
Proof.
  intros Hlog Hsize Hmax.
  destruct (SingleSlot.Get (sharedContextStore w) r) as [c0|] eqn:Hget.
  - rewrite (Camillo_ServeHTTP_found _ _ _ c0) by done.
    cbn [NewWithContext camillo_middleware]. rewrite build_cons.
    cbn [middleware_ServeHTTP Recovery_handler Handler_ServeHTTP].
    by apply (Recovery_returns rec l).
  - rewrite Camillo_ServeHTTP_fresh by done. cbn [fst].
    cbn [NewWithContext camillo_middleware]. rewrite build_cons.
    cbn [middleware_ServeHTTP Recovery_handler Handler_ServeHTTP].
    by apply (Recovery_returns rec l).
Qed.

(** An instance of [dispatch_behind_recovery_returns]: the recovery
    middleware of [NewRecovery] before a nil handler. *)
Lemma dispatch_behind_recovery_returns_witness :
  fst (Camillo_ServeHTTP (NewWithContext None [Recovery_handler NewRecovery; None])
         (RawWriter 0) 1 (initial no_dump))
  = Normal tt.
Proof.
  apply (dispatch_behind_recovery_returns NewRecovery
           (mkLogger os_Stdout "[camillo] ")).
  - reflexivity.
  - vm_compute. discriminate.
  - vm_compute. discriminate.
Defined.

(** X15.  A recovery middleware around another one has nothing to do: when
    the inner one has a logger and a [StackSize] that [make] accepts (not
    negative and not above [maxAlloc]), the
    outer one writes and logs nothing, and the call is the call of the inner
    one alone. *)
Theorem recovery_around_recovery
  (outer inner : Recovery) (l : logger) (c : Context) (rw : ResponseWriter)
  (r : Request) (next : NextFunc) (w : World) :
  Logger inner = Some l ->
  (0 <= StackSize inner)%Z ->
  (StackSize inner <= maxAlloc)%Z ->
  Recovery_ServeHTTP outer c rw r
    (fun c' rw' r' => Recovery_ServeHTTP inner c' rw' r' next) w
  = Recovery_ServeHTTP inner c rw r next w.
Proof.
  intros Hlog Hsize Hmax.
  pose proof (Recovery_returns inner l c rw r next w Hlog Hsize Hmax) as Hret.
  unfold Recovery_ServeHTTP at 1, defer_recover.
  destruct (Recovery_ServeHTTP inner c rw r next w) as [[[]|v] w1]; [done|].
  discriminate Hret.
Qed.

(** An instance of [recovery_around_recovery]: a recovery middleware without
    logger around the one of [NewRecovery], above a handler that panics. *)
Lemma recovery_around_recovery_witness :
  map line_message
    (logged (snd (Recovery_ServeHTTP (mkRecovery None true false (-1))
                    (Some Background) (RawWriter 0) 1
                    (fun c' rw' r' =>
                       Recovery_ServeHTTP NewRecovery c' rw' r'
                         (panicking (Some (VString "boom"))))
                    (initial no_dump))))
  = [format_panic (VString "boom") ""].
Proof.
  rewrite (recovery_around_recovery (mkRecovery None true false (-1))
             NewRecovery (mkLogger os_Stdout "[camillo] ")).
  - reflexivity.
  - reflexivity.
  - vm_compute. discriminate.
  - vm_compute. discriminate.
Defined.

(** ** A nil context at the adapter *)

(** X16.  A nil context is not resumed.  When the handler that [Wrap] makes
    of a mounted instance receives a nil context, the instance finds no
    context for the request and runs a dispatch of its own: it creates and
    cancels its own context and removes the entry of the request, so the
    store yields nil when it returns and [next] is called with the nil
    context. *)
Theorem wrap_with_nil_context_starts_afresh
  (inner : Camillo) (rw : ResponseWriter) (r : Request) (next : NextFunc)
  (w : World) :
  let w1 := set_store (SingleSlot.Add r None) w in
  let c := CancelCtx (next_object w) (base_context inner) in
  let head :=
    middleware_ServeHTTP (camillo_middleware inner) (Some c)
      (Wrapper (S (next_object w)) rw) r (fresh_head inner r w1) in
  let out := Camillo_ServeHTTP inner rw r w1 in
  fst out = fst head
  /\ done (snd out) c = true
  /\ ~ SingleSlot.has_entry (sharedContextStore (snd out)) r
  /\ Handler_ServeHTTP (Wrap (Camillo_handler inner)) None rw r next w
     = match fst out with
       | Normal _ => next None rw r (snd out)
       | Panic v => (Panic v, snd out)
       end.
Proof.
  intros w1 c head out.
  assert (Hget : SingleSlot.Get (sharedContextStore w1) r = None)
    by apply Get_Add.
  assert (Hout : out = (fst head,
                        set_cancelled (fun s => {[next_object w]} ∪ s)
                          (set_store (SingleSlot.Remove r) (snd head)))).
  { subst out. by rewrite Camillo_ServeHTTP_fresh. }
  split; [by rewrite Hout|]. split; [|split].
  - rewrite Hout. cbn [snd done]. apply orb_true_intro. left.
    apply bool_decide_eq_true. cbn. set_solver.
  - rewrite Hout. apply no_entry_Remove.
  - cbn [Handler_ServeHTTP Wrap Camillo_handler http_ServeHTTP].
    unfold bind, store_Add, modify, store_Get, gets. fold w1. fold out.
    assert (Hnil : SingleSlot.Get (sharedContextStore (snd out)) r = None).
    { rewrite Hout. apply Get_Remove. }
    destruct out as [[[]|v] w2]; [|done]. cbn [fst snd] in *. by rewrite Hnil.
Qed.
